(** * TACo Storage SDK: a shallow embedding of the store/retrieve pipeline

    The orchestrator [TacoStorage] (src/src/types/index.ts), the base adapter
    helpers (src/src/adapters/base.ts, src/src/adapters/ipfs/base.ts) and
    the concrete adapters (SQLite: src/unnamed/part_004; Kubo:
    src/src/adapters/ipfs/base.ts; Helia: src/unnamed/part_002; Pinata:
    src/src/adapters/pinata.ts) are modelled as functions in a small
    state-and-exception monad.  Every [async] method is a computation of
    that monad: [await] is sequencing, [throw] and [try]/[catch] are the
    monad's exceptions.  The TACo library, the CID parser and the hosted
    pinning service are external collaborators and appear as black boxes. *)

From Stdlib Require Import ZArith List String Ascii Bool Lia Permutation.
From stdpp Require Import base gmap strings list.

Import ListNotations.
#[local] Set Warnings "-register-all".
Open Scope string_scope.

(* ------------------------------------------------------------------ *)
(** ** Error values *)

(** [TacoStorageErrorType] (types/index.ts).  [INVALID_REFERENCE] is read
    by ipfs/base.ts but is not a member of the enum: at run time
    [TacoStorageErrorType.INVALID_REFERENCE] is [undefined], which is what
    [UNDEFINED_TYPE] stands for. *)
Inductive TacoStorageErrorType :=
| ENCRYPTION_ERROR | STORAGE_ERROR | RETRIEVAL_ERROR | DECRYPTION_ERROR
| INVALID_CONFIG | ADAPTER_ERROR | NOT_FOUND | UNDEFINED_TYPE.

Definition err_type_eqb (a b : TacoStorageErrorType) : bool :=
  match a, b with
  | ENCRYPTION_ERROR, ENCRYPTION_ERROR | STORAGE_ERROR, STORAGE_ERROR
  | RETRIEVAL_ERROR, RETRIEVAL_ERROR | DECRYPTION_ERROR, DECRYPTION_ERROR
  | INVALID_CONFIG, INVALID_CONFIG | ADAPTER_ERROR, ADAPTER_ERROR
  | NOT_FOUND, NOT_FOUND | UNDEFINED_TYPE, UNDEFINED_TYPE => true
  | _, _ => false
  end.

(** A thrown value: either a [TacoStorageError] (type, message,
    originalError) or any other [Error], with its optional [code]
    property (read by the Kubo adapter). *)
Inductive Exn :=
| TacoStorageError (type : TacoStorageErrorType) (message : string)
    (originalError : option Exn)
| PlainError (message : string) (code : option string).

(** [(error as Error).message] *)
Definition exn_message (e : Exn) : string :=
  match e with
  | TacoStorageError _ m _ => m
  | PlainError m _ => m
  end.

(** [error instanceof TacoStorageError] *)
Definition is_taco_error (e : Exn) : bool :=
  match e with TacoStorageError _ _ _ => true | PlainError _ _ => false end.

(** [error instanceof TacoStorageError && error.type === t] *)
Definition is_taco_error_of (t : TacoStorageErrorType) (e : Exn) : bool :=
  match e with
  | TacoStorageError t' _ _ => err_type_eqb t' t
  | PlainError _ _ => false
  end.

(** [(error as any).code === c] *)
Definition has_code (c : string) (e : Exn) : bool :=
  match e with
  | PlainError _ (Some c') => String.eqb c' c
  | _ => false
  end.

(* ------------------------------------------------------------------ *)
(** ** A state monad with exceptions *)

Inductive Res (A : Type) : Type :=
| Ok (a : A)
| Throw (e : Exn).
Arguments Ok {A} a.
Arguments Throw {A} e.

Definition M (S A : Type) : Type := S -> Res A * S.

Definition ret {S A} (a : A) : M S A := fun s => (Ok a, s).
Definition throw {S A} (e : Exn) : M S A := fun s => (Throw e, s).

Definition bind {S A B} (m : M S A) (k : A -> M S B) : M S B :=
  fun s =>
    match m s with
    | (Ok a, s') => k a s'
    | (Throw e, s') => (Throw e, s')
    end.

(** [try { m } catch (e) { h(e) }] *)
Definition catch {S A} (m : M S A) (h : Exn -> M S A) : M S A :=
  fun s =>
    match m s with
    | (Throw e, s') => h e s'
    | r => r
    end.

Definition get {S} : M S S := fun s => (Ok s, s).
Definition put {S} (s : S) : M S unit := fun _ => (Ok tt, s).
Definition modify {S} (f : S -> S) : M S unit := fun s => (Ok tt, f s).

(** A fallible pure value, lifted into the monad. *)
Definition of_res {S A} (r : Res A) : M S A := fun s => (r, s).

Notation "x <- m ;; k" := (bind m (fun x => k))
  (at level 64, m at next level, right associativity).
Notation "m ;;; k" := (bind m (fun _ => k))
  (at level 64, right associativity).

(* ------------------------------------------------------------------ *)
(** ** Strings *)

(** JavaScript white space and line terminators among the code units
    0-255 a character of this model stands for (TAB, LF, VT, FF, CR, SPACE
    and NO-BREAK SPACE U+00A0): what [String.prototype.trim] removes. *)
Definition is_js_space (c : ascii) : bool :=
  match nat_of_ascii c with
  | 9 | 10 | 11 | 12 | 13 | 32 | 160 => true
  | _ => false
  end.

(** [id.trim().length === 0] *)
Fixpoint is_blank (s : string) : bool :=
  match s with
  | EmptyString => true
  | String c s' => is_js_space c && is_blank s'
  end.

(** [BaseStorageAdapter.validateId]: [!id || id.trim().length === 0]
    throws a plain [Error]. *)
Definition validateId {S} (id : string) : M S unit :=
  if is_blank id
  then throw (PlainError "Invalid ID: must be a non-empty string" None)
  else ret tt.

(** [BaseStorageAdapter.validateData]: an empty payload throws a plain
    [Error]. *)
Definition validateData {S} (data : list Z) : M S unit :=
  match data with
  | [] => throw (PlainError "Invalid data: must be a non-empty Uint8Array" None)
  | _ => ret tt
  end.

(** [BaseStorageAdapter.validateConfig]: [config] lists the keys present
    in the configuration object ([key in this.config]). *)
Definition validateConfig {S} (requiredKeys config : list string) : M S unit :=
  let missingKeys := List.filter (fun k => negb (existsb (String.eqb k) config)) requiredKeys in
  match missingKeys with
  | [] => ret tt
  | _ :: _ => throw (TacoStorageError INVALID_CONFIG
                      ("Missing required configuration: " ++ String.concat ", " missingKeys) None)
  end.

(** [BaseIPFSAdapter.formatReference] *)
Definition formatReference (hash : string) : string := "ipfs://" ++ hash.

(** [BaseIPFSAdapter.parseReference]: strip a leading ["ipfs://"]. *)
Definition parseReference (reference : string) : string :=
  if String.prefix "ipfs://" reference
  then substring 7 (String.length reference - 7) reference
  else reference.

(* ------------------------------------------------------------------ *)
(** ** Data model (types/index.ts) *)

(** [new Uint8Array(array)] and [Buffer.from(array)] on an array of
    integers: each entry is reduced to a byte, [& 255]. *)
Definition to_uint8 (l : list Z) : list Z := map (fun b => Z.land b 255) l.

(** The entries of a [Uint8Array]. *)
Definition is_byte (b : Z) : Prop := (0 <= b < 256)%Z.

(** A JSON value: access conditions ([conditions: any]) and custom
    metadata ([Record<string, unknown>]) are carried as JSON and are
    assumed to survive [JSON.stringify]/[JSON.parse] unchanged. *)
Inductive Json :=
| JNull | JBool (b : bool) | JNum (z : Z) | JStr (s : string)
| JArr (l : list Json) | JObj (l : list (string * Json)).

(** [data: Uint8Array | string]: bytes, or a string whose [length] is its
    number of UTF-16 code units (one per character in this model). *)
Inductive Data :=
| DBytes (b : list Z)
| DStr (s : string).

(** [data.length] *)
Definition data_length (d : Data) : Z :=
  match d with
  | DBytes b => Z.of_nat (length b)
  | DStr s => Z.of_nat (String.length s)
  end.

(** [!data || data.length === 0] *)
Definition data_empty (d : Data) : bool := Z.eqb (data_length d) 0.

(** [StorageMetadata]; [createdAt] is a millisecond timestamp. *)
Record StorageMetadata := mkStorageMetadata {
  md_id : string;
  md_contentType : string;
  md_size : Z;
  md_createdAt : Z;
  md_metadata : option Json;
  md_messageKit : list Z;
  md_conditions : Json;
  md_ipfsHash : option string
}.

(** [StorageResult] *)
Record StorageResult := mkStorageResult {
  sr_id : string;
  sr_reference : string;
  sr_metadata : StorageMetadata
}.

(** [RetrievalResult] *)
Record RetrievalResult := mkRetrievalResult {
  rr_data : list Z;
  rr_metadata : StorageMetadata
}.

(** The result of [getHealth()]. *)
Record Health := mkHealth {
  healthy : bool;
  details : option (list (string * Json))
}.

(** [{ ...metadata, ipfsHash: hash }] *)
Definition with_ipfsHash (hash : string) (md : StorageMetadata) : StorageMetadata :=
  {| md_id := md_id md; md_contentType := md_contentType md;
     md_size := md_size md; md_createdAt := md_createdAt md;
     md_metadata := md_metadata md; md_messageKit := md_messageKit md;
     md_conditions := md_conditions md; md_ipfsHash := Some hash |}.

(** [{ ...metadata, encryptionMetadata: { messageKit: mk, ... } }] *)
Definition with_messageKit (mk : list Z) (md : StorageMetadata) : StorageMetadata :=
  {| md_id := md_id md; md_contentType := md_contentType md;
     md_size := md_size md; md_createdAt := md_createdAt md;
     md_metadata := md_metadata md; md_messageKit := mk;
     md_conditions := md_conditions md; md_ipfsHash := md_ipfsHash md |}.

(** [IStorageAdapter] (adapters/base.ts) over an adapter state [S];
    [list] is optional. *)
Record IStorageAdapter (S : Type) := mkAdapter {
  a_initialize : M S unit;
  a_store : list Z -> StorageMetadata -> M S StorageResult;
  a_retrieve : string -> M S (list Z * StorageMetadata);
  a_delete : string -> M S bool;
  a_exists : string -> M S bool;
  a_list : option (option Z -> option Z -> M S (list string));
  a_getHealth : M S Health;
  a_cleanup : M S unit
}.
Arguments mkAdapter {S}.
Arguments a_initialize {S}. Arguments a_store {S}. Arguments a_retrieve {S}.
Arguments a_delete {S}. Arguments a_exists {S}. Arguments a_list {S}.
Arguments a_getHealth {S}. Arguments a_cleanup {S}.

(* ------------------------------------------------------------------ *)
(** ** SQLite adapter (src/unnamed/part_004) *)

Module SQLite.

(** A row of the [items] table; [created_at] is the ISO timestamp,
    compared here as the millisecond time it denotes (ISO strings of one
    format order like their times). *)
Record ItemRow := mkItemRow {
  key : string;
  content_type : string;
  row_size : Z;
  created_at : Z;
  message_kit : list Z;
  conditions : Json;
  row_metadata : option Json
}.

(** The database: whether [close] has run, whether the file at [dbPath]
    is not an SQLite database, the answer [PRAGMA integrity_check] gives,
    whether the schema of [setupDatabase] exists, the [items] rows in rowid
    order and the [item_data] table keyed by [key]. *)
Record SQLiteState := mkSQLiteState {
  dbPath : string;
  isClosed : bool;
  notADatabase : bool;
  integrity : string;
  schema : bool;
  items : list ItemRow;
  item_data : gmap string (list Z)
}.

Definition set_items (st : SQLiteState) (rows : list ItemRow)
    (data : gmap string (list Z)) : SQLiteState :=
  {| dbPath := dbPath st; isClosed := isClosed st; notADatabase := notADatabase st;
     integrity := integrity st; schema := schema st; items := rows; item_data := data |}.

Definition set_flags (st : SQLiteState) (closed sch : bool) : SQLiteState :=
  {| dbPath := dbPath st; isClosed := closed; notADatabase := notADatabase st;
     integrity := integrity st; schema := sch; items := items st;
     item_data := item_data st |}.

(** The error sqlite3 reports for a statement on a file that is not a
    database. *)
Definition notadb_error : Exn :=
  PlainError "SQLITE_NOTADB: file is not a database" (Some "SQLITE_NOTADB").

(** A statement on the [items] table reaches the database only when it is
    open and the tables exist (which they never do in a file that is not a
    database); otherwise sqlite3 rejects it with a plain [Error] carrying
    its [code]. *)
Definition db_ready : M SQLiteState unit :=
  st <- get ;;
  if isClosed st
  then throw (PlainError "SQLITE_MISUSE: Database is closed" (Some "SQLITE_MISUSE"))
  else if schema st then ret tt
  else if notADatabase st then throw notadb_error
  else throw (PlainError "SQLITE_ERROR: no such table: items" (Some "SQLITE_ERROR")).

Definition find_row (k : string) (rows : list ItemRow) : option ItemRow :=
  List.find (fun r => String.eqb (key r) k) rows.

Definition remove_row (k : string) (rows : list ItemRow) : list ItemRow :=
  List.filter (fun r => negb (String.eqb (key r) k)) rows.

(** [INSERT OR REPLACE]: the conflicting row is deleted and the new row
    gets a fresh (largest) rowid. *)
Definition insert_or_replace (r : ItemRow) (rows : list ItemRow) : list ItemRow :=
  remove_row (key r) rows ++ [r].

(** The row written by [store]; the message kit goes through
    [Buffer.from]. *)
Definition row_of_metadata (md : StorageMetadata) : ItemRow :=
  {| key := md_id md; content_type := md_contentType md; row_size := md_size md;
     created_at := md_createdAt md; message_kit := to_uint8 (md_messageKit md);
     conditions := md_conditions md; row_metadata := md_metadata md |}.

Definition generateReference (st : SQLiteState) (id : string) : string :=
  "sqlite://" ++ dbPath st ++ "#" ++ id.

(** [SQLiteAdapter.store] *)
Definition store (encryptedData : list Z) (md : StorageMetadata)
    : M SQLiteState StorageResult :=
  validateData encryptedData ;;;
  catch
    (db_ready ;;;
     st <- get ;;
     put (set_items st (insert_or_replace (row_of_metadata md) (items st))
                       (item_data st)) ;;;
     db_ready ;;;
     st <- get ;;
     put (set_items st (items st) (<[md_id md := encryptedData]> (item_data st))) ;;;
     st <- get ;;
     ret {| sr_id := md_id md; sr_reference := generateReference st (md_id md);
            sr_metadata := md |})
    (fun e => throw (TacoStorageError STORAGE_ERROR
                       ("Failed to store data in SQLite: " ++ exn_message e) (Some e))).

(** The metadata rebuilt from a row by [retrieve]. *)
Definition metadata_of_row (r : ItemRow) : StorageMetadata :=
  {| md_id := key r; md_contentType := content_type r; md_size := row_size r;
     md_createdAt := created_at r; md_metadata := row_metadata r;
     md_messageKit := message_kit r; md_conditions := conditions r;
     md_ipfsHash := None |}.

(** [SQLiteAdapter.retrieve]: [items LEFT JOIN item_data]; a missing
    [item_data] row gives [encrypted_data = NULL], hence an empty array. *)
Definition retrieve (id : string) : M SQLiteState (list Z * StorageMetadata) :=
  validateId id ;;;
  catch
    (db_ready ;;;
     st <- get ;;
     match find_row id (items st) with
     | None => throw (TacoStorageError NOT_FOUND ("Data not found for ID: " ++ id) None)
     | Some r =>
         let encryptedData :=
           match item_data st !! id with Some b => b | None => [] end in
         ret (encryptedData, metadata_of_row r)
     end)
    (fun e => if is_taco_error e then throw e
              else throw (TacoStorageError RETRIEVAL_ERROR
                     ("Failed to retrieve data from SQLite: " ++ exn_message e) (Some e))).

(** [SQLiteAdapter.exists] *)
Definition exists_ (id : string) : M SQLiteState bool :=
  validateId id ;;;
  catch
    (db_ready ;;;
     st <- get ;;
     ret (match find_row id (items st) with Some _ => true | None => false end))
    (fun e => throw (TacoStorageError STORAGE_ERROR
                       ("Failed to check existence in SQLite: " ++ exn_message e) (Some e))).

(** [SQLiteAdapter.delete]; [ON DELETE CASCADE] removes the [item_data]
    row with the [items] row. *)
Definition delete (id : string) : M SQLiteState bool :=
  validateId id ;;;
  catch
    (existsBefore <- exists_ id ;;
     if negb existsBefore then ret false
     else
       db_ready ;;;
       st <- get ;;
       put (set_items st (remove_row id (items st)) (delete id (item_data st))) ;;;
       existsAfter <- exists_ id ;;
       ret (negb existsAfter))
    (fun e => throw (TacoStorageError STORAGE_ERROR
                       ("Failed to delete data from SQLite: " ++ exn_message e) (Some e))).

(** [ORDER BY created_at DESC], as a backward scan of the index
    [idx_created_at] yields it: rows in rowid order are inserted one by one
    ahead of every row that is not newer, so ties come out by descending
    rowid. *)
Fixpoint insert_desc (r : ItemRow) (rows : list ItemRow) : list ItemRow :=
  match rows with
  | [] => [r]
  | r' :: rest =>
      if Z.leb (created_at r') (created_at r) then r :: rows
      else r' :: insert_desc r rest
  end.

Fixpoint order_by_created_desc (rows : list ItemRow) : list ItemRow :=
  match rows with
  | [] => []
  | r :: rest => insert_desc r (order_by_created_desc rest)
  end.

(** [LIMIT ? OFFSET ?] as SQLite evaluates them: a negative [OFFSET]
    counts as zero and a negative [LIMIT] means no upper bound. *)
Definition limit_offset {A} (limit offset : Z) (rows : list A) : list A :=
  let rest := drop (Z.to_nat offset) rows in
  if Z.ltb limit 0 then rest else take (Z.to_nat limit) rest.

(** [SQLiteAdapter.list(limit = 100, offset = 0)] *)
Definition list_ (limit offset : option Z) : M SQLiteState (list string) :=
  let limit := match limit with Some l => l | None => 100%Z end in
  let offset := match offset with Some o => o | None => 0%Z end in
  catch
    (db_ready ;;;
     st <- get ;;
     ret (map key (limit_offset limit offset
                     (order_by_created_desc (rev (items st))))))
    (fun e => throw (TacoStorageError RETRIEVAL_ERROR
                       ("Failed to list data from SQLite: " ++ exn_message e) (Some e))).

(** [SQLiteAdapter.getHealth]: the row count of [items], then
    [PRAGMA integrity_check]; any failure becomes [healthy: false]. *)
Definition getHealth : M SQLiteState Health :=
  catch
    (db_ready ;;;
     st <- get ;;
     ret {| healthy := String.eqb (integrity st) "ok";
            details := Some [("databasePath", JStr (dbPath st));
                             ("recordCount", JNum (Z.of_nat (length (items st))));
                             ("integrityCheck", JStr (integrity st))] |})
    (fun e => st <- get ;;
              ret {| healthy := false;
                     details := Some [("databasePath", JStr (dbPath st));
                                      ("error", JStr (exn_message e))] |}).

(** [SQLiteAdapter.setupDatabase]: the [PRAGMA]s, then [CREATE TABLE IF
    NOT EXISTS ...], which reads the file and fails on one that is not a
    database. *)
Definition setupDatabase : M SQLiteState unit :=
  catch
    (st <- get ;;
     if notADatabase st then throw notadb_error
     else put (set_flags st false true))
    (fun e => throw (TacoStorageError ADAPTER_ERROR "Failed to setup database schema" (Some e))).

(** [SQLiteAdapter.initialize]; the test query [SELECT 1] cannot fail once
    the schema is set up. *)
Definition initialize : M SQLiteState unit :=
  st <- get ;;
  if isClosed st
  then throw (TacoStorageError ADAPTER_ERROR "Database is closed" None)
  else catch setupDatabase
         (fun e => throw (TacoStorageError ADAPTER_ERROR "Failed to initialize SQLite database"
                            (Some e))).

(** [SQLiteAdapter.cleanup]; closing is taken to succeed. *)
Definition cleanup : M SQLiteState unit :=
  st <- get ;;
  if isClosed st then ret tt
  else put (set_flags st true (schema st)).

Definition adapter : IStorageAdapter SQLiteState :=
  {| a_initialize := initialize; a_store := store; a_retrieve := retrieve;
     a_delete := delete; a_exists := exists_; a_list := Some list_;
     a_getHealth := getHealth; a_cleanup := cleanup |}.




End SQLite.

(* ------------------------------------------------------------------ *)
(** ** IPFS adapters (src/src/adapters/ipfs/base.ts, src/unnamed/part_002) *)

(** The JSON envelope [{ data, metadata }] the IPFS adapters write; its
    [JSON.stringify] / [TextEncoder] encoding is taken to be lossless, so
    the block store holds the envelope itself. *)
Record Package := mkPackage {
  pkg_data : list Z;
  pkg_metadata : StorageMetadata
}.

(** The multiformats CID parser and the content addressing of the node:
    [CID.parse] succeeds exactly on [cid_valid] strings, and adding an
    envelope yields the CID [cid_of]. *)
Record CidLib := mkCidLib {
  cid_valid : string -> bool;
  cid_of : Package -> string
}.

Module IPFS.
Section WithCids.
Variable cids : CidLib.

(** [BaseIPFSAdapter.validateAndParseReference]: the error type read is
    [TacoStorageErrorType.INVALID_REFERENCE], i.e. [undefined]. *)
Definition validateAndParseReference {S} (reference : string) : M S string :=
  let hash := parseReference reference in
  if cid_valid cids hash then ret hash
  else throw (TacoStorageError UNDEFINED_TYPE
                ("Invalid IPFS reference format: " ++ reference) None).

(** [BaseIPFSAdapter.parseCID] *)
Definition parseCID {S} (hash : string) : M S string :=
  if cid_valid cids hash then ret hash
  else throw (TacoStorageError UNDEFINED_TYPE
                ("Invalid IPFS hash format: " ++ hash)
                (Some (PlainError "Non-base58btc character" None))).

(** The envelope built by [store]. *)
Definition dataPackage (encryptedData : list Z) (md : StorageMetadata) : Package :=
  {| pkg_data := encryptedData; pkg_metadata := md |}.

End WithCids.
End IPFS.

Module Kubo.
Section WithCids.
Variable cids : CidLib.

(** A Kubo adapter and the node it talks to: whether [initialize] has
    created the RPC client, whether the node answers, the [pin] option,
    the blocks the node holds and its pin set. *)
Record KuboState := mkKuboState {
  client : bool;
  node_up : bool;
  shouldPin : bool;
  blocks : gmap string Package;
  pins : gset string
}.

Definition set_store (st : KuboState) (b : gmap string Package) (p : gset string)
    : KuboState :=
  {| client := client st; node_up := node_up st; shouldPin := shouldPin st;
     blocks := b; pins := p |}.

(** [KuboAdapter.ensureClient] *)
Definition ensureClient : M KuboState unit :=
  st <- get ;;
  if client st then ret tt
  else throw (TacoStorageError ADAPTER_ERROR
                "Kubo IPFS adapter not initialized. Call initialize() first." None).

(** An RPC call reaches the node only when it is up; otherwise [fetch]
    rejects with [TypeError('fetch failed')], which has no [code]. *)
Definition node_call : M KuboState unit :=
  st <- get ;;
  if node_up st then ret tt
  else throw (PlainError "fetch failed" None).

(** [KuboAdapter.addContent]: [client.add(data, { pin, cidVersion: 1 })]. *)
Definition addContent (pkg : Package) : M KuboState string :=
  ensureClient ;;; node_call ;;;
  st <- get ;;
  let h := cid_of cids pkg in
  put (set_store st (<[h := pkg]> (blocks st))
                    (if shouldPin st then {[h]} ∪ pins st else pins st)) ;;;
  ret h.

(** [KuboAdapter.getContent]: [client.cat(hash, { timeout })]; the node
    searches the network for a block it does not hold until the request
    times out. *)
Definition getContent (hash : string) : M KuboState Package :=
  ensureClient ;;; node_call ;;;
  st <- get ;;
  match blocks st !! hash with
  | Some p => ret p
  | None => throw (PlainError "Request timed out" None)
  end.

(** [KuboAdapter.unpinContent]: [client.pin.rm(hash)] when pinning. *)
Definition unpinContent (hash : string) : M KuboState unit :=
  st <- get ;;
  if shouldPin st then
    ensureClient ;;; node_call ;;;
    st <- get ;;
    if bool_decide (hash ∈ pins st)
    then put (set_store st (blocks st) (pins st ∖ {[hash]}))
    else throw (PlainError "not pinned or pinned indirectly" None)
  else ret tt.

(** [KuboAdapter.contentExists]: [client.files.stat('/ipfs/' + hash)];
    every failure, including a missing client, gives [false]. *)
Definition contentExists (hash : string) : M KuboState bool :=
  catch
    (ensureClient ;;; node_call ;;;
     st <- get ;;
     match blocks st !! hash with
     | Some _ => ret true
     | None => throw (PlainError "timeout" None)
     end)
    (fun _ => ret false).

(** [KuboAdapter.store] *)
Definition store (encryptedData : list Z) (md : StorageMetadata)
    : M KuboState StorageResult :=
  validateData encryptedData ;;;
  catch
    (ipfsHash <- addContent (IPFS.dataPackage encryptedData md) ;;
     ret {| sr_id := md_id md; sr_reference := formatReference ipfsHash;
            sr_metadata := with_ipfsHash ipfsHash md |})
    (fun e => throw (TacoStorageError STORAGE_ERROR
                       ("Failed to store data on IPFS: " ++ exn_message e) (Some e))).

(** [KuboAdapter.retrieve]; the extra [encryptedKey] and [capsule] fields
    it adds to [encryptionMetadata] are not read by anyone and are left
    out. *)
Definition retrieve (id : string) : M KuboState (list Z * StorageMetadata) :=
  validateId id ;;;
  catch
    (ipfsHash <- IPFS.validateAndParseReference cids id ;;
     pkg <- getContent ipfsHash ;;
     ret (pkg_data pkg, pkg_metadata pkg))
    (fun e => if has_code "ERR_NOT_FOUND" e
              then throw (TacoStorageError NOT_FOUND ("Data not found for ID: " ++ id) (Some e))
              else throw (TacoStorageError RETRIEVAL_ERROR
                            ("Failed to retrieve data from IPFS: " ++ exn_message e) (Some e))).

(** [KuboAdapter.delete]: unpin, and [true] whatever happens. *)
Definition delete (id : string) : M KuboState bool :=
  validateId id ;;;
  catch
    (unpinContent (parseReference id) ;;; ret true)
    (fun _ => ret true).

(** [KuboAdapter.exists] *)
Definition exists_ (id : string) : M KuboState bool :=
  validateId id ;;;
  catch
    (ipfsHash <- IPFS.validateAndParseReference cids id ;;
     contentExists ipfsHash)
    (fun _ => ret false).

(** [KuboAdapter.getHealth] *)
Definition getHealth : M KuboState Health :=
  catch
    (ensureClient ;;; node_call ;;;
     ret {| healthy := true; details := Some [("nodeId", JStr "peer")] |})
    (fun e => ret {| healthy := false; details := Some [("error", JStr (exn_message e))] |}).

(** [KuboAdapter.initialize]: create the client, then query the node. *)
Definition initialize : M KuboState unit :=
  catch
    (st <- get ;;
     put {| client := true; node_up := node_up st; shouldPin := shouldPin st;
            blocks := blocks st; pins := pins st |} ;;;
     node_call)
    (fun e => throw (TacoStorageError ADAPTER_ERROR
        "Failed to initialize Kubo IPFS adapter - check that IPFS node is running and accessible"
        (Some e))).

Definition adapter : IStorageAdapter KuboState :=
  {| a_initialize := initialize; a_store := store; a_retrieve := retrieve;
     a_delete := delete; a_exists := exists_; a_list := None;
     a_getHealth := getHealth; a_cleanup := ret tt |}.

End WithCids.
End Kubo.

Module Helia.
Section WithCids.
Variable cids : CidLib.

(** A Helia adapter: whether [initialize] has created the node and its
    UnixFS ([helia] and [fs] non-null), and the blocks in its blockstore. *)
Record HeliaState := mkHeliaState {
  ready : bool;
  blocks : gmap string Package
}.

(** [HeliaAdapter.ensureHeliaReady] *)
Definition ensureHeliaReady : M HeliaState unit :=
  st <- get ;;
  if ready st then ret tt
  else throw (TacoStorageError ADAPTER_ERROR
                "Helia IPFS adapter not initialized. Call initialize() first." None).

(** [HeliaAdapter.addContent]: [fs.addBytes(data)]. *)
Definition addContent (pkg : Package) : M HeliaState string :=
  ensureHeliaReady ;;;
  st <- get ;;
  let h := cid_of cids pkg in
  put {| ready := ready st; blocks := <[h := pkg]> (blocks st) |} ;;;
  ret h.

(** [HeliaAdapter.pinContent]: [helia.pins.add(cid)] returns an async
    generator that does the pinning as it is iterated; [await] on it
    resolves at once to the generator itself, which nobody iterates, so no
    pin is made. *)
Definition pinContent (hash : string) : M HeliaState unit :=
  ensureHeliaReady ;;;
  IPFS.parseCID cids hash ;;;
  ret tt.

(** [HeliaAdapter.unpinContent]: likewise, the generator of
    [helia.pins.rm(cid)] is never iterated, so nothing is unpinned and no
    error is raised for a CID that is not pinned. *)
Definition unpinContent (hash : string) : M HeliaState unit :=
  ensureHeliaReady ;;;
  IPFS.parseCID cids hash ;;;
  ret tt.

(** [HeliaAdapter.getContent]: [fs.cat(cid)] raced against the adapter's
    timeout; a block that never arrives ends in the timeout. *)
Definition getContent (hash : string) : M HeliaState Package :=
  ensureHeliaReady ;;;
  cid <- IPFS.parseCID cids hash ;;
  st <- get ;;
  match blocks st !! cid with
  | Some p => ret p
  | None => throw (PlainError "Timeout" None)
  end.

(** [HeliaAdapter.contentExists]: the readiness check and [parseCID] run
    outside its [try]. *)
Definition contentExists (hash : string) : M HeliaState bool :=
  ensureHeliaReady ;;;
  cid <- IPFS.parseCID cids hash ;;
  catch
    (st <- get ;; ret (bool_decide (is_Some (blocks st !! cid))))
    (fun _ => ret false).

(** [HeliaAdapter.store] *)
Definition store (encryptedData : list Z) (md : StorageMetadata)
    : M HeliaState StorageResult :=
  validateData encryptedData ;;;
  catch
    (ipfsHash <- addContent (IPFS.dataPackage encryptedData md) ;;
     pinContent ipfsHash ;;;
     ret {| sr_id := md_id md; sr_reference := formatReference ipfsHash;
            sr_metadata := with_ipfsHash ipfsHash md |})
    (fun e => throw (TacoStorageError STORAGE_ERROR
                       ("Failed to store data using Helia: " ++ exn_message e) (Some e))).

(** [HeliaAdapter.retrieve] *)
Definition retrieve (id : string) : M HeliaState (list Z * StorageMetadata) :=
  validateId id ;;;
  catch
    (ipfsHash <- IPFS.validateAndParseReference cids id ;;
     pkg <- getContent ipfsHash ;;
     ret (pkg_data pkg, pkg_metadata pkg))
    (fun e => if is_taco_error_of NOT_FOUND e then throw e
              else throw (TacoStorageError RETRIEVAL_ERROR
                            ("Failed to retrieve data using Helia: " ++ exn_message e) (Some e))).

(** [HeliaAdapter.delete]: an initialisation error propagates, any other
    failure gives [true]. *)
Definition delete (id : string) : M HeliaState bool :=
  validateId id ;;;
  let ipfsHash := parseReference id in
  catch
    (unpinContent ipfsHash ;;; ret true)
    (fun e => if is_taco_error_of ADAPTER_ERROR e then throw e else ret true).

(** [HeliaAdapter.exists] *)
Definition exists_ (id : string) : M HeliaState bool :=
  validateId id ;;;
  catch
    (ipfsHash <- IPFS.validateAndParseReference cids id ;;
     contentExists ipfsHash)
    (fun e => if is_taco_error_of ADAPTER_ERROR e then throw e else ret false).

(** [HeliaAdapter.getHealth] *)
Definition getHealth : M HeliaState Health :=
  st <- get ;;
  if negb (ready st)
  then ret {| healthy := false;
              details := Some [("status", JStr "not_initialized");
                               ("error", JStr "Helia adapter not initialized")] |}
  else ret {| healthy := true; details := Some [("isStarted", JBool true)] |}.

(** [HeliaAdapter.initialize] *)
Definition initialize : M HeliaState unit :=
  st <- get ;;
  put {| ready := true; blocks := blocks st |}.

(** [HeliaAdapter.cleanup]: stop the node and forget it. *)
Definition cleanup : M HeliaState unit :=
  st <- get ;;
  put {| ready := false; blocks := blocks st |}.

Definition adapter : IStorageAdapter HeliaState :=
  {| a_initialize := initialize; a_store := store; a_retrieve := retrieve;
     a_delete := delete; a_exists := exists_; a_list := None;
     a_getHealth := getHealth; a_cleanup := cleanup |}.

End WithCids.
End Helia.

(* ------------------------------------------------------------------ *)
(** ** Pinata adapter (src/src/adapters/pinata.ts) *)

Module Pinata.

(** A Pinata adapter and the hosted service: whether [initialize] has
    created the SDK client, the gateway [url], whether the service answers,
    the uploaded files (upload id, CID, envelope), and the upload ids and
    CIDs the service will hand out next. *)
Record PinataState := mkPinataState {
  client : bool;
  url : string;
  online : bool;
  files : list (string * string * Package);
  next_uploads : list (string * string)
}.

(** [PinataAdapter.ensureClient] *)
Definition ensureClient : M PinataState unit :=
  st <- get ;;
  if client st then ret tt
  else throw (TacoStorageError ADAPTER_ERROR
                "Pinata adapter not initialized. Call initialize() first." None).

Definition generateReference (st : PinataState) (id : string) : string :=
  "https://" ++ url st ++ "/ipfs/" ++ id.

(** [client.upload.public.file(file)]: the service stores the file and
    answers with the upload id it assigns. *)
Definition upload (pkg : Package) : M PinataState string :=
  st <- get ;;
  if negb (online st) then throw (PlainError "Network error" None) else
  match next_uploads st with
  | [] => throw (PlainError "Upload failed" None)
  | (uid, cid) :: rest =>
      put {| client := client st; url := url st; online := online st;
             files := (uid, cid, pkg) :: files st; next_uploads := rest |} ;;;
      ret uid
  end.

(** [PinataAdapter.store]: the result's [id] is the upload id. *)
Definition store (encryptedData : list Z) (md : StorageMetadata)
    : M PinataState StorageResult :=
  validateData encryptedData ;;;
  ensureClient ;;;
  catch
    (uid <- upload (IPFS.dataPackage encryptedData md) ;;
     st <- get ;;
     ret {| sr_id := uid; sr_reference := generateReference st uid;
            sr_metadata := md |})
    (fun e => throw (TacoStorageError STORAGE_ERROR
                       ("Failed to store data on IPFS: " ++ exn_message e) (Some e))).

(** [PinataAdapter.exists]: [client.files.public.list().cid(id)]. *)
Definition exists_ (id : string) : M PinataState bool :=
  validateId id ;;;
  ensureClient ;;;
  catch
    (st <- get ;;
     if negb (online st) then throw (PlainError "Network error" None)
     else ret (existsb (fun f => String.eqb (snd (fst f)) id) (files st)))
    (fun _ => ret false).

(** [PinataAdapter.initialize]: create the SDK client. *)
Definition initialize : M PinataState unit :=
  st <- get ;;
  put {| client := true; url := url st; online := online st; files := files st;
         next_uploads := next_uploads st |}.

(** [client.gateways.public.get(cid)]: the content of the newest file with
    that CID. *)
Definition gateway_get (cid : string) : M PinataState Package :=
  st <- get ;;
  if negb (online st) then throw (PlainError "Network error" None) else
  match List.find (fun f => String.eqb (snd (fst f)) cid) (files st) with
  | Some f => ret (snd f)
  | None => throw (PlainError "Not Found" None)
  end.

(** [PinataAdapter.retrieve]: [ensureClient] runs before the [try]; the
    body [JSON.parse] reads is the envelope uploaded, and the [data] and
    [messageKit] arrays go through [new Uint8Array]. *)
Definition retrieve (id : string) : M PinataState (list Z * StorageMetadata) :=
  validateId id ;;;
  ensureClient ;;;
  catch
    (pkg <- gateway_get id ;;
     let md := pkg_metadata pkg in
     ret (to_uint8 (pkg_data pkg), with_messageKit (to_uint8 (md_messageKit md)) md))
    (fun e => throw (TacoStorageError STORAGE_ERROR
                       ("Failed to retrieve data from Pinata: " ++ exn_message e) (Some e))).

(** [client.files.public.delete([id])]: the files with that upload id go. *)
Definition files_delete (id : string) : M PinataState unit :=
  st <- get ;;
  if negb (online st) then throw (PlainError "Network error" None) else
  put {| client := client st; url := url st; online := online st;
         files := List.filter (fun f => negb (String.eqb (fst (fst f)) id)) (files st);
         next_uploads := next_uploads st |}.

(** [PinataAdapter.delete]: [true] whatever the service answers. *)
Definition delete (id : string) : M PinataState bool :=
  validateId id ;;;
  ensureClient ;;;
  catch (files_delete id ;;; ret true) (fun _ => ret true).

(** [PinataAdapter.getHealth]; the [responseTime] and [fileCount] details
    are left out. *)
Definition getHealth : M PinataState Health :=
  catch
    (ensureClient ;;;
     st <- get ;;
     if negb (online st) then throw (PlainError "Network error" None)
     else ret {| healthy := true;
                 details := Some [("gateway", JStr (url st)); ("authenticated", JBool true)] |})
    (fun e => st <- get ;;
              ret {| healthy := false;
                     details := Some [("gateway", JStr (url st)); ("error", JStr (exn_message e));
                                      ("authenticated", JBool false)] |}).

Definition adapter : IStorageAdapter PinataState :=
  {| a_initialize := initialize; a_store := store; a_retrieve := retrieve;
     a_delete := delete; a_exists := exists_; a_list := None;
     a_getHealth := getHealth; a_cleanup := ret tt |}.

End Pinata.

(* ------------------------------------------------------------------ *)
(** ** The encryption service and the orchestrator (types/index.ts) *)

(** The external collaborators of [TacoStorage]: the [@nucypher/taco]
    functions [initialize], [encrypt], [decrypt], the serialisation of a
    [ThresholdMessageKit] ([toBytes], [fromBytes]) over an abstract
    message-kit type [MK], and the [uuid] generator.  Conditions are JSON
    values and the signer is named by its address.  [toBytes] returns a
    [Uint8Array]: its entries are bytes. *)
Record TacoLib (MK : Type) := mkTacoLib {
  taco_initialize : Res unit;
  taco_encrypt : Data -> Json -> string -> Res MK;
  taco_decrypt : MK -> Res (list Z);
  toBytes : MK -> list Z;
  fromBytes : list Z -> Res MK;
  uuidv4 : string;
  toBytes_bytes : forall mk, Forall is_byte (toBytes mk)
}.
Arguments taco_initialize {MK}. Arguments taco_encrypt {MK}.
Arguments taco_decrypt {MK}. Arguments toBytes {MK}.
Arguments fromBytes {MK}. Arguments uuidv4 {MK}. Arguments toBytes_bytes {MK}.

(** The calls made to the collaborators, in order: the observable trace
    a test's mocks record. *)
Inductive Call :=
| CallEncrypt (data : Data) (condition : Json)
| CallAdapterStore (encryptedData : list Z) (md : StorageMetadata).

(** The state seen by a [TacoStorage] instance: its adapter's state, the
    [initialized] flag of its [TacoEncryptionService], the clock
    ([new Date()]) and the trace of calls. *)
Record World (S : Type) := mkWorld {
  w_adapter : S;
  w_encInit : bool;
  w_now : Z;
  w_trace : list Call
}.
Arguments mkWorld {S}. Arguments w_adapter {S}. Arguments w_encInit {S}.
Arguments w_now {S}. Arguments w_trace {S}.

(** [StoreOptions] *)
Record StoreOptions := mkStoreOptions {
  o_id : option string;
  o_contentType : option string;
  o_metadata : option Json;
  o_condition : option Json;
  o_expiresAt : option Z
}.

Definition no_options : StoreOptions :=
  {| o_id := None; o_contentType := None; o_metadata := None;
     o_condition := None; o_expiresAt := None |}.

(** [s || dflt] for an optional string. *)
Definition or_else (s : option string) (dflt : string) : string :=
  match s with
  | Some x => if String.eqb x "" then dflt else x
  | None => dflt
  end.

Module TacoStorage.
Section Orchestrator.
Context {S MK : Type}.
Variable adapter : IStorageAdapter S.
Variable lib : TacoLib MK.

(** Run an adapter method on the adapter part of the world. *)
Definition lift {A} (m : M S A) : M (World S) A :=
  fun w => let (r, s') := m (w_adapter w) in
           (r, {| w_adapter := s'; w_encInit := w_encInit w; w_now := w_now w;
                  w_trace := w_trace w |}).

Definition record_call (c : Call) : M (World S) unit :=
  modify (fun w => {| w_adapter := w_adapter w; w_encInit := w_encInit w;
                      w_now := w_now w; w_trace := w_trace w ++ [c] |}).

(** [TacoEncryptionService.initialize] *)
Definition enc_initialize : M (World S) unit :=
  w <- get ;;
  if w_encInit w then ret tt else
  match taco_initialize lib with
  | Ok _ => put {| w_adapter := w_adapter w; w_encInit := true; w_now := w_now w;
                   w_trace := w_trace w |}
  | Throw e => throw (TacoStorageError ENCRYPTION_ERROR
                        "Failed to initialize TACo system" (Some e))
  end.

(** [TacoEncryptionService.encrypt]: the message kit and the condition. *)
Definition enc_encrypt (data : Data) (condition : Json) (signer : string)
    : M (World S) (MK * Json) :=
  enc_initialize ;;;
  if data_empty data
  then throw (TacoStorageError ENCRYPTION_ERROR "Data to encrypt cannot be empty" None)
  else
    catch
      (record_call (CallEncrypt data condition) ;;;
       messageKit <- of_res (taco_encrypt lib data condition signer) ;;
       ret (messageKit, condition))
      (fun e => throw (TacoStorageError ENCRYPTION_ERROR
                         ("Failed to encrypt data: " ++ exn_message e) (Some e))).

(** [TacoEncryptionService.decrypt] *)
Definition enc_decrypt (messageKit : MK) : M (World S) (list Z) :=
  enc_initialize ;;;
  catch
    (of_res (taco_decrypt lib messageKit))
    (fun e => throw (TacoStorageError DECRYPTION_ERROR
                       ("Failed to decrypt data: " ++ exn_message e) (Some e))).

(** [TacoEncryptionService.createTimeCondition] *)
Definition createTimeCondition (endTime : Z) : M (World S) Json :=
  w <- get ;;
  if Z.leb endTime (w_now w)
  then throw (TacoStorageError INVALID_CONFIG "End time must be in the future" None)
  else ret (JObj [("conditionType", JStr "time"); ("chain", JNum 80001);
                  ("method", JStr "blocktime");
                  ("returnValueTest",
                     JObj [("comparator", JStr "<=");
                           ("value", JNum (endTime / 1000)%Z)])]).

(** [this.adapter.store(...)], recorded in the trace. *)
Definition adapter_store (encryptedData : list Z) (md : StorageMetadata)
    : M (World S) StorageResult :=
  record_call (CallAdapterStore encryptedData md) ;;;
  lift (a_store adapter encryptedData md).

(** The [catch] of [store], [retrieve] and [getMetadata]: a
    [TacoStorageError] is rethrown as it is, anything else is wrapped. *)
Definition rethrow_or_wrap {A} (t : TacoStorageErrorType) (prefix : string)
    (e : Exn) : M (World S) A :=
  if is_taco_error e then throw e
  else throw (TacoStorageError t (prefix ++ exn_message e) (Some e)).

(** The [catch] of [delete], [exists], [list] and [cleanup]: everything is
    wrapped. *)
Definition wrap {A} (t : TacoStorageErrorType) (prefix : string)
    (e : Exn) : M (World S) A :=
  throw (TacoStorageError t (prefix ++ exn_message e) (Some e)).

(** [TacoStorage.store] *)
Definition store (data : Data) (signer : string) (options : StoreOptions)
    : M (World S) StorageResult :=
  if data_empty data
  then throw (TacoStorageError INVALID_CONFIG "Data cannot be empty" None)
  else
    catch
      (w <- get ;;
       let id := or_else (o_id options) (uuidv4 lib) in
       let contentType := or_else (o_contentType options) "application/octet-stream" in
       let now := w_now w in
       accessConditions <-
         match o_condition options with
         | Some c => ret c
         | None =>
             let expiresAt := match o_expiresAt options with
                              | Some t => t | None => (now + 24 * 60 * 60 * 1000)%Z end in
             createTimeCondition expiresAt
         end ;;
       encryptionResult <- enc_encrypt data accessConditions signer ;;
       let serializedMessageKit := toBytes lib (fst encryptionResult) in
       let metadata :=
         {| md_id := id; md_contentType := contentType; md_size := data_length data;
            md_createdAt := now; md_metadata := o_metadata options;
            md_messageKit := serializedMessageKit;
            md_conditions := snd encryptionResult; md_ipfsHash := None |} in
       adapter_store serializedMessageKit metadata)
      (rethrow_or_wrap STORAGE_ERROR "Failed to store data: ").

(** The guard [!id || typeof id !== 'string']. *)
Definition check_id (id : string) : M (World S) unit :=
  if String.eqb id ""
  then throw (TacoStorageError INVALID_CONFIG "ID must be a non-empty string" None)
  else ret tt.

(** [TacoStorage.retrieve]: decryption reads the message kit kept in the
    metadata. *)
Definition retrieve (id : string) (signer : string) : M (World S) RetrievalResult :=
  check_id id ;;;
  catch
    (r <- lift (a_retrieve adapter id) ;;
     let metadata := snd r in
     messageKit <- of_res (fromBytes lib (to_uint8 (md_messageKit metadata))) ;;
     decryptedData <- enc_decrypt messageKit ;;
     ret {| rr_data := decryptedData; rr_metadata := metadata |})
    (rethrow_or_wrap RETRIEVAL_ERROR "Failed to retrieve data: ").

(** [TacoStorage.delete] *)
Definition delete (id : string) : M (World S) bool :=
  check_id id ;;;
  catch (lift (a_delete adapter id)) (wrap STORAGE_ERROR "Failed to delete data: ").

(** [TacoStorage.exists] *)
Definition exists_ (id : string) : M (World S) bool :=
  check_id id ;;;
  catch (lift (a_exists adapter id)) (wrap STORAGE_ERROR "Failed to check existence: ").

(** [TacoStorage.getMetadata] *)
Definition getMetadata (id : string) : M (World S) StorageMetadata :=
  check_id id ;;;
  catch
    (r <- lift (a_retrieve adapter id) ;; ret (snd r))
    (rethrow_or_wrap RETRIEVAL_ERROR "Failed to get metadata: ").

(** [TacoStorage.list] *)
Definition list_ (limit offset : option Z) : M (World S) (list string) :=
  match a_list adapter with
  | None => throw (TacoStorageError ADAPTER_ERROR
                     "List operation not supported by this adapter" None)
  | Some f => catch (lift (f limit offset)) (wrap RETRIEVAL_ERROR "Failed to list data: ")
  end.

(** [TacoStorage.getHealth] *)
Definition getHealth : M (World S) Health :=
  catch
    (lift (a_getHealth adapter))
    (fun e => ret {| healthy := false; details := Some [("error", JStr (exn_message e))] |}).

(** [TacoStorage.initialize] *)
Definition initialize : M (World S) unit :=
  lift (a_initialize adapter) ;;; enc_initialize.

(** [TacoStorage.cleanup] *)
Definition cleanup : M (World S) unit :=
  catch (lift (a_cleanup adapter)) (wrap ADAPTER_ERROR "Failed to cleanup: ").

End Orchestrator.
End TacoStorage.

(** A new [TacoStorage] over an adapter in state [s]: its encryption
    service starts uninitialised and nothing has been called yet. *)
Definition new_storage {S} (s : S) (now : Z) : World S :=
  {| w_adapter := s; w_encInit := false; w_now := now; w_trace := [] |}.


(** [TacoStorage.createWithKubo]: the node the new adapter will talk to is
    [node]; a new adapter has no client yet. *)
Definition createWithKubo {MK} (cids : CidLib) (lib : TacoLib MK) (node : Kubo.KuboState)
    (now : Z) : Res unit * World Kubo.KuboState :=
  TacoStorage.initialize (Kubo.adapter cids) lib
    (new_storage {| Kubo.client := false; Kubo.node_up := Kubo.node_up node;
                    Kubo.shouldPin := Kubo.shouldPin node; Kubo.blocks := Kubo.blocks node;
                    Kubo.pins := Kubo.pins node |} now).

(* ------------------------------------------------------------------ *)
(** ** Concrete collaborators, for evaluating the model *)

(** CIDs: strings starting with ["bafy"]; content addressing derives the
    CID from the envelope's metadata id. *)
Definition demo_cids : CidLib :=
  {| cid_valid := fun s => String.prefix "bafy" s;
     cid_of := fun p => "bafy" ++ md_id (pkg_metadata p) |}.

Definition bytes_of_string (s : string) : list Z :=
  map (fun a => Z.of_nat (nat_of_ascii a)) (list_ascii_of_string s).

(** A toy TACo: a message kit is the plaintext behind a 255 tag byte,
    serialised as its bytes. *)
Definition demo_lib : TacoLib (list Z) :=
  {| taco_initialize := Ok tt;
     taco_encrypt := fun d _ _ =>
       match d with
       | DBytes b => Ok (255%Z :: b)
       | DStr s => Ok (255%Z :: bytes_of_string s)
       end;
     taco_decrypt := fun mk =>
       match mk with
       | h :: b => if Z.eqb h 255 then Ok b
                   else Throw (PlainError "Invalid message kit" None)
       | [] => Throw (PlainError "Invalid message kit" None)
       end;
     toBytes := to_uint8;
     fromBytes := fun b => Ok b;
     uuidv4 := "3f1c9a52-8d4e-4b7a-9c21-5e6f7a8b9c0d";
     toBytes_bytes := ltac:(
       intros mk; apply List.Forall_forall; intros x Hx;
       apply List.in_map_iff in Hx; destruct Hx as (b & <- & _);
       unfold is_byte; change 255%Z with (Z.ones 8);
       rewrite Z.land_ones by lia; apply Z.mod_pos_bound; lia) |}.

Definition demo_condition : Json :=
  JObj [("conditionType", JStr "time"); ("chain", JNum 80001)].

(** The options [{ condition: c }]. *)
Definition with_condition (c : Json) : StoreOptions :=
  {| o_id := None; o_contentType := None; o_metadata := None;
     o_condition := Some c; o_expiresAt := None |}.

Definition demo_options : StoreOptions :=
  {| o_id := None; o_contentType := None; o_metadata := None;
     o_condition := Some demo_condition; o_expiresAt := None |}.

(** A [TacoStorage] world whose encryption service is initialised. *)
Definition world0 {S} (s : S) : World S :=
  {| w_adapter := s; w_encInit := true; w_now := 1700000000000%Z; w_trace := [] |}.

(** An initialised, open SQLite database. *)
Definition sqlite_ready (rows : list SQLite.ItemRow) (data : gmap string (list Z))
    : SQLite.SQLiteState :=
  {| SQLite.dbPath := ":memory:"; SQLite.isClosed := false; SQLite.notADatabase := false;
     SQLite.integrity := "ok"; SQLite.schema := true;
     SQLite.items := rows; SQLite.item_data := data |}.

(** Adapters before [initialize]. *)
Definition helia_uninit : Helia.HeliaState :=
  {| Helia.ready := false; Helia.blocks := ∅ |}.

Definition kubo_uninit : Kubo.KuboState :=
  {| Kubo.client := false; Kubo.node_up := true; Kubo.shouldPin := true;
     Kubo.blocks := ∅; Kubo.pins := ∅ |}.

Definition kubo_ready : Kubo.KuboState :=
  {| Kubo.client := true; Kubo.node_up := true; Kubo.shouldPin := true;
     Kubo.blocks := ∅; Kubo.pins := ∅ |}.

(** A stored row of three plaintext bytes. *)
Definition demo_row (k : string) : SQLite.ItemRow :=
  {| SQLite.key := k; SQLite.content_type := "text/plain"; SQLite.row_size := 3%Z;
     SQLite.created_at := 1700000000000%Z; SQLite.message_kit := [255; 1; 2; 3]%Z;
     SQLite.conditions := demo_condition; SQLite.row_metadata := None |}.








(** The id's row is present in the database. *)
Definition sqlite_found (id : string) (st : SQLite.SQLiteState) : bool :=
  match SQLite.find_row id (SQLite.items st) with Some _ => true | None => false end.

(** The metadata of [demo_row "k1"]. *)
Definition demo_md : StorageMetadata := SQLite.metadata_of_row (demo_row "k1").



(* ================================================================== *)
(** * Properties *)

Ltac mrun := cbv [bind catch ret throw get put modify of_res] in *.

(** ** Empty input *)

(** C5: [TacoStorage.store] on empty data throws an [INVALID_CONFIG]
    error and leaves the world exactly as it was: the adapter state is
    unchanged and neither the encryption service nor the adapter's
    [store] was called (the trace is unchanged). *)
Theorem store_empty_rejected {S MK : Type} (adapter : IStorageAdapter S)
    (lib : TacoLib MK) (data : Data) (signer : string) (options : StoreOptions)
    (w : World S) :
  data_empty data = true ->
  TacoStorage.store adapter lib data signer options w =
    (Throw (TacoStorageError INVALID_CONFIG "Data cannot be empty" None), w).
Proof.
  intros Hempty. unfold TacoStorage.store. rewrite Hempty. reflexivity.
Qed.

Lemma store_empty_rejected_witness :
  data_empty (DBytes []) = true /\
  TacoStorage.store SQLite.adapter demo_lib (DBytes []) "0xabc" demo_options
      (world0 (sqlite_ready [] ∅)) =
    (Throw (TacoStorageError INVALID_CONFIG "Data cannot be empty" None),
     world0 (sqlite_ready [] ∅)).
Proof.
  split; [reflexivity | apply store_empty_rejected; reflexivity].
Defined.

(** ** Health *)

(** C8: [TacoStorage.getHealth] never throws, whatever the adapter's
    [getHealth] does: a result of the adapter is passed on, a thrown error
    [e] becomes [{ healthy: false, details: { error: e.message } }]. *)
Theorem getHealth_never_throws {S : Type} (adapter : IStorageAdapter S) (w : World S) :
  fst (TacoStorage.getHealth adapter w) =
    match fst (a_getHealth adapter (w_adapter w)) with
    | Ok h => Ok h
    | Throw e => Ok {| healthy := false; details := Some [("error", JStr (exn_message e))] |}
    end.
Proof.
  unfold TacoStorage.getHealth, TacoStorage.lift. mrun.
  destruct (a_getHealth adapter (w_adapter w)) as [[h|e] s']; reflexivity.
Qed.

(** ** Error propagation *)

(** C3 (evaluated at a failing input): an uninitialised Helia adapter's
    [delete] throws the typed [ADAPTER_ERROR]; [TacoStorage.delete] does
    not pass it on but wraps it in a new [STORAGE_ERROR]. *)
Theorem delete_rewraps_typed_error :
  let e := TacoStorageError ADAPTER_ERROR
             "Helia IPFS adapter not initialized. Call initialize() first." None in
  Helia.delete demo_cids "ipfs://bafyabc" helia_uninit = (Throw e, helia_uninit) /\
  fst (TacoStorage.delete (Helia.adapter demo_cids) "ipfs://bafyabc"
         (world0 helia_uninit)) =
    Throw (TacoStorageError STORAGE_ERROR
             ("Failed to delete data: " ++ exn_message e) (Some e)).
Proof. split; vm_compute; reflexivity. Qed.

(** ** Recorded size *)

(** C2 (counterexample): storing the 3 bytes [[1;2;3]] hands the SQLite
    adapter a 4-byte encrypted payload with [size = 3], and the result
    reports [size = 3]: the size is not the payload's length. *)
Lemma store_size_counterexample :
  let '(r, w') := TacoStorage.store SQLite.adapter demo_lib (DBytes [1;2;3]%Z) "0xabc"
                    demo_options (world0 (sqlite_ready [] ∅)) in
  exists res payload md,
    r = Ok res /\ In (CallAdapterStore payload md) (w_trace w') /\
    md_size md = 3%Z /\ Z.of_nat (length payload) = 4%Z /\
    md_size (sr_metadata res) = 3%Z.
Proof.
  vm_compute. do 3 eexists. split; [reflexivity|]. split; [right; left; reflexivity|].
  repeat split; reflexivity.
Qed.

(** C2 (amended): a successful [TacoStorage.store] encrypts the caller's
    data once and hands the adapter's [store] one call whose payload is
    the serialised message kit and whose metadata records
    [size = data.length], the length of the caller's plaintext. *)
Theorem store_size_is_plaintext_length {S MK : Type} (adapter : IStorageAdapter S)
    (lib : TacoLib MK) (data : Data) (signer : string) (options : StoreOptions)
    (w w' : World S) (res : StorageResult) :
  TacoStorage.store adapter lib data signer options w = (Ok res, w') ->
  exists cond mk md,
    w_trace w' = (w_trace w ++ [CallEncrypt data cond; CallAdapterStore (toBytes lib mk) md])%list /\
    taco_encrypt lib data cond signer = Ok mk /\
    md_messageKit md = toBytes lib mk /\
    md_size md = data_length data.
Proof.
  unfold TacoStorage.store.
  destruct (data_empty data) eqn:Hempty; [discriminate|].
  unfold TacoStorage.enc_encrypt, TacoStorage.enc_initialize, TacoStorage.adapter_store,
    TacoStorage.record_call, TacoStorage.lift, TacoStorage.createTimeCondition,
    TacoStorage.rethrow_or_wrap.
  mrun. rewrite Hempty.
  destruct w as [s init now tr]; simpl.
  set (cond_step := match o_condition options with | Some c => _ | None => _ end).
  destruct (cond_step _) as [[cond|e] w1] eqn:Hcond;
    [|destruct (is_taco_error e); discriminate].
  destruct (w_encInit w1) eqn:Hinit.
  - destruct (taco_encrypt lib data cond signer) as [mk|e] eqn:Henc;
      [|simpl; discriminate].
    simpl. destruct (a_store adapter _ _ _) as [[r|e] s'] eqn:Hst;
      [|destruct (is_taco_error e); discriminate].
    intros Heq; inversion Heq; subst; clear Heq.
    subst cond_step. destruct (o_condition options).
    + inversion Hcond; subst. simpl. do 3 eexists. split; [rewrite <- app_assoc; reflexivity|].
      split; [exact Henc|split; reflexivity].
    + destruct (Z.leb _ _); inversion Hcond; subst. simpl.
      do 3 eexists. split; [rewrite <- app_assoc; reflexivity|].
      split; [exact Henc|split; reflexivity].
  - destruct (taco_initialize lib) as [u|e]; [|destruct (is_taco_error _); discriminate].
    destruct (taco_encrypt lib data cond signer) as [mk|e] eqn:Henc;
      [|simpl; discriminate].
    simpl. destruct (a_store adapter _ _ _) as [[r|e] s'] eqn:Hst;
      [|destruct (is_taco_error e); discriminate].
    intros Heq; inversion Heq; subst; clear Heq.
    subst cond_step. destruct (o_condition options).
    + inversion Hcond; subst. simpl. do 3 eexists. split; [rewrite <- app_assoc; reflexivity|].
      split; [exact Henc|split; reflexivity].
    + destruct (Z.leb _ _); inversion Hcond; subst. simpl.
      do 3 eexists. split; [rewrite <- app_assoc; reflexivity|].
      split; [exact Henc|split; reflexivity].
Qed.

Lemma store_size_is_plaintext_length_witness :
  match TacoStorage.store SQLite.adapter demo_lib (DBytes [1;2;3]%Z) "0xabc"
          demo_options (world0 (sqlite_ready [] ∅)) with
  | (Ok _, w') =>
      exists cond mk md,
        w_trace w' = [CallEncrypt (DBytes [1;2;3]%Z) cond;
                      CallAdapterStore (toBytes demo_lib mk) md] /\
        taco_encrypt demo_lib (DBytes [1;2;3]%Z) cond "0xabc" = Ok mk /\
        md_messageKit md = toBytes demo_lib mk /\
        md_size md = data_length (DBytes [1;2;3]%Z)
  | (Throw _, _) => False
  end.
Proof.
  destruct (TacoStorage.store SQLite.adapter demo_lib (DBytes [1;2;3]%Z) "0xabc"
              demo_options (world0 (sqlite_ready [] ∅))) as [[res|e] w'] eqn:E.
  - exact (store_size_is_plaintext_length SQLite.adapter demo_lib _ _ _ _ _ _ E).
  - vm_compute in E. discriminate.
Defined.

(** ** Result ids *)

(** C9: the SQLite, Kubo and Helia adapters answer a successful [store]
    with [id = metadata.id]; the Pinata adapter answers with the upload
    id the service assigned, keeps [metadata] as given, so its result's
    [id] differs from [metadata.id] whenever the upload id does. *)
Theorem store_result_ids (cids : CidLib) (payload : list Z) (md : StorageMetadata)
    (r : StorageResult) (sq sq' : SQLite.SQLiteState) (k k' : Kubo.KuboState)
    (h h' : Helia.HeliaState) (p p' : Pinata.PinataState) :
  (SQLite.store payload md sq = (Ok r, sq') -> sr_id r = md_id md) /\
  (Kubo.store cids payload md k = (Ok r, k') -> sr_id r = md_id md) /\
  (Helia.store cids payload md h = (Ok r, h') -> sr_id r = md_id md) /\
  (Pinata.store payload md p = (Ok r, p') ->
     exists uid cid rest,
       Pinata.next_uploads p = (uid, cid) :: rest /\
       sr_id r = uid /\ sr_metadata r = md /\
       (uid <> md_id md -> sr_id r <> md_id (sr_metadata r))).
Proof.
  split; [|split; [|split]].
  - unfold SQLite.store, SQLite.db_ready, validateData. mrun.
    intros H. repeat (case_match; simplify_eq/=); done.
  - unfold Kubo.store, Kubo.addContent, Kubo.ensureClient, Kubo.node_call, validateData.
    mrun. intros H. repeat (case_match; simplify_eq/=); done.
  - unfold Helia.store, Helia.addContent, Helia.pinContent, Helia.ensureHeliaReady,
      IPFS.parseCID, validateData.
    mrun. intros H. repeat (case_match; simplify_eq/=); done.
  - unfold Pinata.store, Pinata.upload, Pinata.ensureClient, validateData.
    mrun. intros H. repeat (case_match; simplify_eq/=).
    do 3 eexists. split; [eassumption|]. split; [reflexivity|]. split; [reflexivity|].
    simpl. auto.
Qed.

(** ** SQLite: rows without payload, absent ids *)

(** C10 (counterexample): an [items] row keyed by the blank id [" "]
    (which [SQLiteAdapter.store] accepts) without an [item_data] row:
    [retrieve " "] does not succeed, [validateId] rejects the id. *)
Lemma retrieve_blank_key_counterexample :
  SQLite.find_row " " (SQLite.items (sqlite_ready [demo_row " "] ∅)) = Some (demo_row " ") /\
  SQLite.item_data (sqlite_ready [demo_row " "] ∅) !! " " = None /\
  SQLite.retrieve " " (sqlite_ready [demo_row " "] ∅) =
    (Throw (PlainError "Invalid ID: must be a non-empty string" None),
     sqlite_ready [demo_row " "] ∅).
Proof. split; [|split]; reflexivity. Qed.

(** C10 (amended): on an open, initialised database, for a non-blank id
    whose [items] row exists but whose [item_data] row does not,
    [SQLiteAdapter.retrieve] succeeds with an empty payload and the row's
    metadata, and changes nothing; a blank id (empty, or only JavaScript
    white space such as U+00A0) is rejected by [validateId] before any
    query, whatever rows the database holds. *)
Theorem retrieve_missing_item_data (st : SQLite.SQLiteState) (id : string)
    (r : SQLite.ItemRow) :
  (is_blank id = false -> SQLite.isClosed st = false -> SQLite.schema st = true ->
   SQLite.find_row id (SQLite.items st) = Some r ->
   SQLite.item_data st !! id = None ->
   SQLite.retrieve id st = (Ok ([], SQLite.metadata_of_row r), st)) /\
  (is_blank id = true ->
   SQLite.retrieve id st =
     (Throw (PlainError "Invalid ID: must be a non-empty string" None), st)).
Proof.
  split.
  - intros Hid Hopen Hschema Hrow Hdata.
    unfold SQLite.retrieve, SQLite.db_ready, validateId. mrun.
    rewrite Hid, Hopen, Hschema, Hrow, Hdata. reflexivity.
  - intros Hid. unfold SQLite.retrieve, validateId. mrun. rewrite Hid. reflexivity.
Qed.

(** At ["k1"], and at the id made of one no-break space (U+00A0). *)
Lemma retrieve_missing_item_data_witness :
  SQLite.retrieve "k1" (sqlite_ready [demo_row "k1"] ∅) =
    (Ok ([], SQLite.metadata_of_row (demo_row "k1")), sqlite_ready [demo_row "k1"] ∅) /\
  SQLite.retrieve (String (ascii_of_nat 160) EmptyString)
    (sqlite_ready [demo_row (String (ascii_of_nat 160) EmptyString)] ∅) =
    (Throw (PlainError "Invalid ID: must be a non-empty string" None),
     sqlite_ready [demo_row (String (ascii_of_nat 160) EmptyString)] ∅).
Proof.
  split.
  - apply (retrieve_missing_item_data (sqlite_ready [demo_row "k1"] ∅) "k1" (demo_row "k1"));
      reflexivity.
  - apply (retrieve_missing_item_data
             (sqlite_ready [demo_row (String (ascii_of_nat 160) EmptyString)] ∅)
             (String (ascii_of_nat 160) EmptyString)
             (demo_row (String (ascii_of_nat 160) EmptyString))).
    reflexivity.
Defined.





(** ** Best-effort [exists] *)

(** C6 (code bug): on a Helia adapter whose [initialize] has not run,
    [exists] of a non-blank locator that is not a CID answers [false]
    instead of throwing: [validateAndParseReference] throws its
    [INVALID_REFERENCE] error (whose type is [undefined]) before
    [contentExists] reaches [ensureHeliaReady], and the [catch] turns every
    error but an [ADAPTER_ERROR] into [false]. *)
Theorem helia_exists_uninitialized_answers_false (cids : CidLib) (id : string)
    (h : Helia.HeliaState) :
  is_blank id = false -> Helia.ready h = false ->
  cid_valid cids (parseReference id) = false ->
  Helia.exists_ cids id h = (Ok false, h).
Proof.
  intros Hid Hh Hv.
  unfold Helia.exists_, IPFS.validateAndParseReference, validateId. mrun.
  rewrite Hid, Hv. reflexivity.
Qed.

Lemma helia_exists_uninitialized_answers_false_witness :
  Helia.exists_ demo_cids "invalid-cid" helia_uninit = (Ok false, helia_uninit).
Proof.
  exact (helia_exists_uninitialized_answers_false demo_cids "invalid-cid" helia_uninit
           eq_refl eq_refl eq_refl).
Defined.

(** ** SQLite pagination *)



















(** ** Round trip *)

Lemma substring_all (s : string) : substring 0 (String.length s) s = s.
Proof. induction s; simpl; f_equal; auto. Qed.

Lemma parseReference_format (h : string) : parseReference (formatReference h) = h.
Proof.
  unfold parseReference, formatReference.
  destruct h as [|a h]; [reflexivity|]. simpl.
  f_equal. apply substring_all.
Qed.

Lemma find_row_insert (k : string) (r : SQLite.ItemRow) (rows : list SQLite.ItemRow) :
  SQLite.key r = k -> SQLite.find_row k (SQLite.insert_or_replace r rows) = Some r.
Proof.
  intros <-.
  unfold SQLite.find_row, SQLite.insert_or_replace, SQLite.remove_row.
  induction rows as [|r' rows IH]; simpl.
  - rewrite String.eqb_refl. reflexivity.
  - destruct (String.eqb (SQLite.key r') (SQLite.key r)) eqn:E; simpl; [exact IH|].
    rewrite E. exact IH.
Qed.

Lemma is_blank_format (h : string) : is_blank (formatReference h) = false.
Proof. reflexivity. Qed.

Lemma format_nonempty (h : string) : String.eqb (formatReference h) "" = false.
Proof. reflexivity. Qed.

Lemma not_blank_nonempty (s : string) : is_blank s = false -> String.eqb s "" = false.
Proof. intros H. destruct (String.eqb_spec s ""); [subst; discriminate|reflexivity]. Qed.

Lemma to_uint8_bytes (l : list Z) : Forall is_byte l -> to_uint8 l = l.
Proof.
  induction 1 as [|b l Hb _ IH]; [reflexivity|]. unfold is_byte in Hb.
  simpl. fold (to_uint8 l). rewrite IH. f_equal.
  change 255%Z with (Z.ones 8). rewrite Z.land_ones by lia. apply Z.mod_small. lia.
Qed.

Lemma taco_round_trip {S MK : Type} (adapter : IStorageAdapter S) (lib : TacoLib MK)
    (loc : StorageResult -> string) (Q : StorageResult -> S -> Prop)
    (p : list Z) (c : Json) (signer : string) (mk : MK) (w : World S) :
  p <> []%list ->
  taco_encrypt lib (DBytes p) c signer = Ok mk ->
  fromBytes lib (toBytes lib mk) = Ok mk ->
  taco_decrypt lib mk = Ok p ->
  w_encInit w = true \/ taco_initialize lib = Ok tt ->
  (forall md, md_id md = uuidv4 lib -> md_messageKit md = toBytes lib mk ->
     exists r s', a_store adapter (toBytes lib mk) md (w_adapter w) = (Ok r, s') /\
       String.eqb (loc r) "" = false /\ Q r s' /\
       exists d md', fst (a_retrieve adapter (loc r) s') = Ok (d, md') /\
                     to_uint8 (md_messageKit md') = toBytes lib mk) ->
  exists r w', TacoStorage.store adapter lib (DBytes p) signer (with_condition c) w = (Ok r, w') /\
    Q r (w_adapter w') /\ w_encInit w' = true /\
    exists rr, fst (TacoStorage.retrieve adapter lib (loc r) signer w') = Ok rr /\ rr_data rr = p.
Proof.
  destruct w as [st enc now tr]; simpl. intros Hp Henc Hfrom Hdec Hinit Had.
  destruct p as [|x p']; [congruence|].
  destruct (Had {| md_id := uuidv4 lib; md_contentType := "application/octet-stream";
                   md_size := data_length (DBytes (x :: p')); md_createdAt := now;
                   md_metadata := None; md_messageKit := toBytes lib mk;
                   md_conditions := c; md_ipfsHash := None |} eq_refl eq_refl)
    as (r & s' & Hst & Hloc & HQ & d & md' & Hret & Hmk).
  destruct (a_retrieve adapter (loc r) s') as [res s''] eqn:Er.
  simpl in Hret. subst res.
  exists r. eexists. split; [|split; [|split]].
  - unfold TacoStorage.store, TacoStorage.enc_encrypt, TacoStorage.enc_initialize,
      TacoStorage.record_call, TacoStorage.adapter_store, TacoStorage.lift. mrun. simpl.
    destruct enc; [|destruct Hinit as [Hinit|Hinit]; [discriminate|rewrite Hinit]]; simpl;
      rewrite Henc; simpl; simpl in Hst; rewrite Hst; reflexivity.
  - exact HQ.
  - reflexivity.
  - unfold TacoStorage.retrieve, TacoStorage.check_id, TacoStorage.lift,
      TacoStorage.enc_decrypt, TacoStorage.enc_initialize. mrun. simpl.
    rewrite Hloc. cbn [w_adapter]. rewrite Er. simpl. rewrite Hmk, Hfrom. simpl. rewrite Hdec.
    simpl. eexists; split; reflexivity.
Qed.

(** [TacoStorage.retrieve] passes on a typed error of its adapter. *)
Lemma taco_retrieve_typed_error {S MK : Type} (adapter : IStorageAdapter S) (lib : TacoLib MK)
    (id signer : string) (w : World S) (e : Exn) (s' : S) :
  String.eqb id "" = false ->
  a_retrieve adapter id (w_adapter w) = (Throw e, s') -> is_taco_error e = true ->
  fst (TacoStorage.retrieve adapter lib id signer w) = Throw e.
Proof.
  intros Hid Hr He.
  unfold TacoStorage.retrieve, TacoStorage.check_id, TacoStorage.lift,
    TacoStorage.rethrow_or_wrap. mrun. rewrite Hid. simpl.
  rewrite Hr. simpl. rewrite He. reflexivity.
Qed.

(** The IPFS adapters' [retrieve] of a non-blank locator that is not a CID
    reference. *)
Lemma kubo_retrieve_invalid (cids : CidLib) (id : string) (st : Kubo.KuboState) :
  is_blank id = false -> cid_valid cids (parseReference id) = false ->
  Kubo.retrieve cids id st =
    (Throw (TacoStorageError RETRIEVAL_ERROR
              ("Failed to retrieve data from IPFS: " ++ "Invalid IPFS reference format: " ++ id)
              (Some (TacoStorageError UNDEFINED_TYPE ("Invalid IPFS reference format: " ++ id)
                       None))), st).
Proof.
  intros Hid Hv. unfold Kubo.retrieve, IPFS.validateAndParseReference, validateId. mrun.
  rewrite Hid, Hv. reflexivity.
Qed.

Lemma helia_retrieve_invalid (cids : CidLib) (id : string) (st : Helia.HeliaState) :
  is_blank id = false -> cid_valid cids (parseReference id) = false ->
  Helia.retrieve cids id st =
    (Throw (TacoStorageError RETRIEVAL_ERROR
              ("Failed to retrieve data using Helia: " ++ "Invalid IPFS reference format: " ++ id)
              (Some (TacoStorageError UNDEFINED_TYPE ("Invalid IPFS reference format: " ++ id)
                       None))), st).
Proof.
  intros Hid Hv. unfold Helia.retrieve, IPFS.validateAndParseReference, validateId. mrun.
  rewrite Hid, Hv. reflexivity.
Qed.

Lemma sqlite_store_retrieve (payload : list Z) (md : StorageMetadata) (st : SQLite.SQLiteState) :
  payload <> []%list -> is_blank (md_id md) = false ->
  SQLite.isClosed st = false -> SQLite.schema st = true ->
  exists r s', SQLite.store payload md st = (Ok r, s') /\ sr_id r = md_id md /\
    fst (SQLite.retrieve (md_id md) s') = Ok (payload, SQLite.metadata_of_row (SQLite.row_of_metadata md)).
Proof.
  intros Hp Hid Hc Hs. destruct payload as [|b bs]; [congruence|].
  do 2 eexists. split; [|split].
  - unfold SQLite.store, validateData, SQLite.db_ready. mrun. simpl.
    do 3 (rewrite ?Hc, ?Hs; simpl). reflexivity.
  - reflexivity.
  - unfold SQLite.retrieve, validateId, SQLite.db_ready. mrun. simpl.
    rewrite Hid. do 2 (rewrite ?Hc, ?Hs; simpl).
    rewrite find_row_insert by reflexivity. rewrite lookup_insert_eq. reflexivity.
Qed.

Lemma kubo_store_retrieve (cids : CidLib) (payload : list Z) (md : StorageMetadata)
    (st : Kubo.KuboState) :
  payload <> []%list -> (forall pkg, cid_valid cids (cid_of cids pkg) = true) ->
  Kubo.client st = true -> Kubo.node_up st = true ->
  exists r s', Kubo.store cids payload md st = (Ok r, s') /\ sr_id r = md_id md /\
    String.eqb (sr_reference r) "" = false /\
    fst (Kubo.retrieve cids (sr_reference r) s') = Ok (payload, md).
Proof.
  intros Hp Hcid Hc Hn. destruct payload as [|b bs]; [congruence|].
  do 2 eexists. split.
  - unfold Kubo.store, validateData, Kubo.addContent, Kubo.ensureClient, Kubo.node_call.
    mrun. simpl. do 3 (rewrite ?Hc, ?Hn; simpl). reflexivity.
  - split; [reflexivity|]. split; [reflexivity|]. simpl. unfold Kubo.retrieve, validateId, IPFS.validateAndParseReference.
    rewrite is_blank_format, parseReference_format, Hcid.
    unfold Kubo.getContent, Kubo.ensureClient, Kubo.node_call. mrun. simpl.
    do 3 (rewrite ?Hc, ?Hn; simpl). rewrite lookup_insert_eq. reflexivity.
Qed.

Lemma helia_store_retrieve (cids : CidLib) (payload : list Z) (md : StorageMetadata)
    (st : Helia.HeliaState) :
  payload <> []%list -> (forall pkg, cid_valid cids (cid_of cids pkg) = true) ->
  Helia.ready st = true ->
  exists r s', Helia.store cids payload md st = (Ok r, s') /\ sr_id r = md_id md /\
    String.eqb (sr_reference r) "" = false /\
    fst (Helia.retrieve cids (sr_reference r) s') = Ok (payload, md).
Proof.
  intros Hp Hcid Hr. destruct payload as [|b bs]; [congruence|].
  do 2 eexists. split.
  - unfold Helia.store, validateData, Helia.addContent, Helia.pinContent,
      Helia.ensureHeliaReady, IPFS.parseCID.
    mrun. simpl. do 3 (rewrite ?Hr, ?Hcid; simpl). reflexivity.
  - split; [reflexivity|]. split; [reflexivity|]. simpl. unfold Helia.retrieve, validateId, IPFS.validateAndParseReference.
    rewrite is_blank_format, parseReference_format, Hcid.
    unfold Helia.getContent, Helia.ensureHeliaReady, IPFS.parseCID. mrun. simpl.
    do 3 (rewrite ?Hr, ?Hcid; simpl). rewrite lookup_insert_eq. reflexivity.
Qed.

(** C1 (counterexample): through the Kubo adapter, [store] returns the
    generated UUID as [id], and [retrieve] on that id fails with a
    [RETRIEVAL_ERROR]: the adapter reads its argument as an IPFS
    reference, and a UUID is not a CID. *)
Lemma round_trip_by_id_counterexample :
  exists r w',
    TacoStorage.store (Kubo.adapter demo_cids) demo_lib (DBytes [1; 2; 3]%Z) "0xsigner"
      (with_condition demo_condition) (world0 kubo_ready) = (Ok r, w') /\
    sr_id r = "3f1c9a52-8d4e-4b7a-9c21-5e6f7a8b9c0d" /\
    exists e, fst (TacoStorage.retrieve (Kubo.adapter demo_cids) demo_lib (sr_id r) "0xsigner" w')
              = Throw e /\ is_taco_error_of RETRIEVAL_ERROR e = true.
Proof.
  do 2 eexists. split; [reflexivity|]. split; [reflexivity|].
  eexists. split; reflexivity.
Qed.

(** C1: let TACo encrypt the non-empty plaintext [p] under [c] into a
    message kit [mk] whose serialisation is non-empty and read back as
    [mk], and decrypt [mk] to [p]; let the generated UUID be non-blank and
    not a CID, and every CID the IPFS node assigns be one [CID.parse]
    accepts; let TACo be initialised already or its [initialize] succeed.
    Then [TacoStorage.store] of [p] with [{ condition: c }] succeeds with
    the UUID as [id], and [TacoStorage.retrieve] yields [p]: given the
    returned [id] on an open, initialised SQLite database, and given the
    returned [reference] on an initialised Kubo adapter whose node is up
    or an initialised Helia adapter.  On these two, [retrieve] given the
    returned [id] throws a [RETRIEVAL_ERROR]. *)
Theorem store_retrieve_round_trip {MK : Type} (lib : TacoLib MK) (cids : CidLib)
    (p : list Z) (c : Json) (signer : string) (mk : MK) :
  p <> []%list ->
  taco_encrypt lib (DBytes p) c signer = Ok mk ->
  toBytes lib mk <> []%list ->
  fromBytes lib (toBytes lib mk) = Ok mk ->
  taco_decrypt lib mk = Ok p ->
  is_blank (uuidv4 lib) = false ->
  cid_valid cids (parseReference (uuidv4 lib)) = false ->
  (forall pkg, cid_valid cids (cid_of cids pkg) = true) ->
  (forall w : World SQLite.SQLiteState,
     w_encInit w = true \/ taco_initialize lib = Ok tt ->
     SQLite.isClosed (w_adapter w) = false -> SQLite.schema (w_adapter w) = true ->
     exists r w', TacoStorage.store SQLite.adapter lib (DBytes p) signer (with_condition c) w
                  = (Ok r, w') /\ sr_id r = uuidv4 lib /\
       exists rr, fst (TacoStorage.retrieve SQLite.adapter lib (sr_id r) signer w') = Ok rr /\
                  rr_data rr = p) /\
  (forall w : World Kubo.KuboState,
     w_encInit w = true \/ taco_initialize lib = Ok tt ->
     Kubo.client (w_adapter w) = true -> Kubo.node_up (w_adapter w) = true ->
     exists r w', TacoStorage.store (Kubo.adapter cids) lib (DBytes p) signer (with_condition c) w
                  = (Ok r, w') /\ sr_id r = uuidv4 lib /\
       (exists rr, fst (TacoStorage.retrieve (Kubo.adapter cids) lib (sr_reference r) signer w')
                   = Ok rr /\ rr_data rr = p) /\
       (exists m e, fst (TacoStorage.retrieve (Kubo.adapter cids) lib (sr_id r) signer w')
                    = Throw (TacoStorageError RETRIEVAL_ERROR m e))) /\
  (forall w : World Helia.HeliaState,
     w_encInit w = true \/ taco_initialize lib = Ok tt ->
     Helia.ready (w_adapter w) = true ->
     exists r w', TacoStorage.store (Helia.adapter cids) lib (DBytes p) signer (with_condition c) w
                  = (Ok r, w') /\ sr_id r = uuidv4 lib /\
       (exists rr, fst (TacoStorage.retrieve (Helia.adapter cids) lib (sr_reference r) signer w')
                   = Ok rr /\ rr_data rr = p) /\
       (exists m e, fst (TacoStorage.retrieve (Helia.adapter cids) lib (sr_id r) signer w')
                    = Throw (TacoStorageError RETRIEVAL_ERROR m e))).
Proof.
  intros Hp Henc Hkit Hfrom Hdec Huuid Hnotcid Hcid.
  assert (Hbytes : to_uint8 (toBytes lib mk) = toBytes lib mk)
    by apply to_uint8_bytes, toBytes_bytes.
  assert (Hne : String.eqb (uuidv4 lib) "" = false) by apply not_blank_nonempty, Huuid.
  split; [|split].
  - intros w Hinit Hc Hs.
    destruct (taco_round_trip SQLite.adapter lib sr_id (fun r _ => sr_id r = uuidv4 lib) p c signer mk w
                Hp Henc Hfrom Hdec Hinit) as (r & w' & Hst & HQ & _ & Hret).
    + intros md Hid Hmk. rewrite <- Hid in Huuid.
      destruct (sqlite_store_retrieve (toBytes lib mk) md (w_adapter w) Hkit Huuid Hc Hs)
        as (r & s' & Hst & Hr & Hret).
      exists r, s'. split; [exact Hst|]. rewrite Hr. split; [apply not_blank_nonempty, Huuid|].
      split; [congruence|].
      do 2 eexists. split; [exact Hret|]. simpl. rewrite Hmk, !Hbytes. reflexivity.
    + exists r, w'. split; [exact Hst|]. split; [exact HQ|exact Hret].
  - intros w Hinit Hc Hn.
    destruct (taco_round_trip (Kubo.adapter cids) lib sr_reference
                (fun r s' => sr_id r = uuidv4 lib /\
                   Kubo.retrieve cids (uuidv4 lib) s' =
                     (Throw (TacoStorageError RETRIEVAL_ERROR
                        ("Failed to retrieve data from IPFS: " ++ "Invalid IPFS reference format: "
                           ++ uuidv4 lib)
                        (Some (TacoStorageError UNDEFINED_TYPE
                                 ("Invalid IPFS reference format: " ++ uuidv4 lib) None))), s'))
                p c signer mk w Hp Henc Hfrom Hdec Hinit)
      as (r & w' & Hst & [Hid Hbad] & _ & Hret).
    + intros md Hid Hmk.
      destruct (kubo_store_retrieve cids (toBytes lib mk) md (w_adapter w) Hkit Hcid Hc Hn)
        as (r & s' & Hst & Hrid & Hne' & Hret).
      exists r, s'. split; [exact Hst|]. split; [exact Hne'|].
      split; [split|].
      * congruence.
      * apply kubo_retrieve_invalid; assumption.
      * do 2 eexists. split; [exact Hret|]. rewrite Hmk, Hbytes. reflexivity.
    + exists r, w'. split; [exact Hst|]. split; [exact Hid|]. split; [exact Hret|].
      do 2 eexists. eapply (taco_retrieve_typed_error (Kubo.adapter cids) lib _ signer w');
        [rewrite Hid; exact Hne|rewrite Hid; exact Hbad|reflexivity].
  - intros w Hinit Hr.
    destruct (taco_round_trip (Helia.adapter cids) lib sr_reference
                (fun r s' => sr_id r = uuidv4 lib /\
                   Helia.retrieve cids (uuidv4 lib) s' =
                     (Throw (TacoStorageError RETRIEVAL_ERROR
                        ("Failed to retrieve data using Helia: " ++ "Invalid IPFS reference format: "
                           ++ uuidv4 lib)
                        (Some (TacoStorageError UNDEFINED_TYPE
                                 ("Invalid IPFS reference format: " ++ uuidv4 lib) None))), s'))
                p c signer mk w Hp Henc Hfrom Hdec Hinit)
      as (r & w' & Hst & [Hid Hbad] & _ & Hret).
    + intros md Hid Hmk.
      destruct (helia_store_retrieve cids (toBytes lib mk) md (w_adapter w) Hkit Hcid Hr)
        as (r & s' & Hst & Hrid & Hne' & Hret).
      exists r, s'. split; [exact Hst|]. split; [exact Hne'|].
      split; [split|].
      * congruence.
      * apply helia_retrieve_invalid; assumption.
      * do 2 eexists. split; [exact Hret|]. rewrite Hmk, Hbytes. reflexivity.
    + exists r, w'. split; [exact Hst|]. split; [exact Hid|]. split; [exact Hret|].
      do 2 eexists. eapply (taco_retrieve_typed_error (Helia.adapter cids) lib _ signer w');
        [rewrite Hid; exact Hne|rewrite Hid; exact Hbad|reflexivity].
Qed.

Lemma demo_cids_valid (pkg : Package) : cid_valid demo_cids (cid_of demo_cids pkg) = true.
Proof. simpl. destruct (md_id (pkg_metadata pkg)); reflexivity. Qed.

Lemma store_retrieve_round_trip_witness :
  (exists r w', TacoStorage.store SQLite.adapter demo_lib (DBytes [1; 2; 3]%Z) "0xsigner"
                  (with_condition demo_condition) (world0 (sqlite_ready [] ∅)) = (Ok r, w') /\
     sr_id r = uuidv4 demo_lib /\
     exists rr, fst (TacoStorage.retrieve SQLite.adapter demo_lib (sr_id r) "0xsigner" w') = Ok rr /\
                rr_data rr = [1; 2; 3]%Z) /\
  (exists r w', TacoStorage.store (Kubo.adapter demo_cids) demo_lib (DBytes [1; 2; 3]%Z) "0xsigner"
                  (with_condition demo_condition) (world0 kubo_ready) = (Ok r, w') /\
     sr_id r = uuidv4 demo_lib /\
     (exists rr, fst (TacoStorage.retrieve (Kubo.adapter demo_cids) demo_lib (sr_reference r)
                        "0xsigner" w') = Ok rr /\ rr_data rr = [1; 2; 3]%Z) /\
     (exists m e, fst (TacoStorage.retrieve (Kubo.adapter demo_cids) demo_lib (sr_id r) "0xsigner" w')
                  = Throw (TacoStorageError RETRIEVAL_ERROR m e))) /\
  (exists r w', TacoStorage.store (Helia.adapter demo_cids) demo_lib (DBytes [1; 2; 3]%Z) "0xsigner"
                  (with_condition demo_condition)
                  (world0 {| Helia.ready := true; Helia.blocks := ∅ |}) = (Ok r, w') /\
     sr_id r = uuidv4 demo_lib /\
     (exists rr, fst (TacoStorage.retrieve (Helia.adapter demo_cids) demo_lib (sr_reference r)
                        "0xsigner" w') = Ok rr /\ rr_data rr = [1; 2; 3]%Z) /\
     (exists m e, fst (TacoStorage.retrieve (Helia.adapter demo_cids) demo_lib (sr_id r) "0xsigner" w')
                  = Throw (TacoStorageError RETRIEVAL_ERROR m e))).
Proof.
  pose proof (store_retrieve_round_trip demo_lib demo_cids [1; 2; 3]%Z demo_condition "0xsigner"
                [255; 1; 2; 3]%Z ltac:(discriminate) eq_refl ltac:(discriminate) eq_refl eq_refl
                eq_refl eq_refl demo_cids_valid) as (Hs & Hk & Hh).
  split; [|split].
  - apply Hs; [left|..]; reflexivity.
  - apply Hk; [left|..]; reflexivity.
  - apply Hh; [left|..]; reflexivity.
Defined.

(* ------------------------------------------------------------------ *)
(** ** Adapter and orchestrator properties beyond the specification *)

Lemma find_row_remove (id : string) (rows : list SQLite.ItemRow) :
  SQLite.find_row id (SQLite.remove_row id rows) = None.
Proof.
  unfold SQLite.find_row, SQLite.remove_row.
  induction rows as [|r rows IH]; simpl; [reflexivity|].
  destruct (String.eqb (SQLite.key r) id) eqn:E; simpl; [exact IH|].
  rewrite E. exact IH.
Qed.

Lemma sqlite_exists_ready (id : string) (st : SQLite.SQLiteState) :
  is_blank id = false -> SQLite.isClosed st = false -> SQLite.schema st = true ->
  SQLite.exists_ id st = (Ok (sqlite_found id st), st).
Proof.
  intros Hid Hc Hs. unfold SQLite.exists_, validateId, SQLite.db_ready, sqlite_found.
  mrun. rewrite Hid, Hc, Hs. reflexivity.
Qed.

Lemma sqlite_delete_ready (id : string) (st : SQLite.SQLiteState) :
  is_blank id = false -> SQLite.isClosed st = false -> SQLite.schema st = true ->
  SQLite.delete id st =
    if sqlite_found id st
    then (Ok true, SQLite.set_items st (SQLite.remove_row id (SQLite.items st))
                                       (delete id (SQLite.item_data st)))
    else (Ok false, st).
Proof.
  intros Hid Hc Hs. unfold SQLite.delete, validateId. mrun. rewrite Hid.
  rewrite (sqlite_exists_ready id st Hid Hc Hs).
  destruct (sqlite_found id st) eqn:Hf; [|reflexivity]. simpl.
  unfold SQLite.db_ready. mrun. rewrite Hc, Hs. simpl.
  rewrite sqlite_exists_ready by assumption.
  unfold sqlite_found. simpl. rewrite find_row_remove. reflexivity.
Qed.

Lemma sqlite_store_ready (payload : list Z) (md : StorageMetadata) (st : SQLite.SQLiteState) :
  payload <> []%list -> SQLite.isClosed st = false -> SQLite.schema st = true ->
  SQLite.store payload md st =
    (Ok {| sr_id := md_id md; sr_reference := SQLite.generateReference st (md_id md);
           sr_metadata := md |},
     SQLite.set_items st (SQLite.insert_or_replace (SQLite.row_of_metadata md) (SQLite.items st))
                         (<[md_id md := payload]> (SQLite.item_data st))).
Proof.
  intros Hp Hc Hs. destruct payload as [|b bs]; [congruence|].
  unfold SQLite.store, validateData, SQLite.db_ready. mrun. simpl.
  do 3 (rewrite ?Hc, ?Hs; simpl). reflexivity.
Qed.

Lemma sqlite_retrieve_ready (id : string) (st : SQLite.SQLiteState) :
  is_blank id = false -> SQLite.isClosed st = false -> SQLite.schema st = true ->
  SQLite.retrieve id st =
    (match SQLite.find_row id (SQLite.items st) with
     | None => Throw (TacoStorageError NOT_FOUND ("Data not found for ID: " ++ id) None)
     | Some r => Ok (match SQLite.item_data st !! id with Some b => b | None => [] end,
                     SQLite.metadata_of_row r)
     end, st).
Proof.
  intros Hid Hc Hs. unfold SQLite.retrieve, validateId, SQLite.db_ready. mrun.
  rewrite Hid, Hc, Hs. destruct (SQLite.find_row id (SQLite.items st)); reflexivity.
Qed.

Lemma find_row_insert_ne (id : string) (r : SQLite.ItemRow) (rows : list SQLite.ItemRow) :
  SQLite.key r <> id ->
  SQLite.find_row id (SQLite.insert_or_replace r rows) = SQLite.find_row id rows.
Proof.
  intros Hne. unfold SQLite.find_row, SQLite.insert_or_replace, SQLite.remove_row.
  induction rows as [|r' rows IH]; simpl.
  - destruct (String.eqb_spec (SQLite.key r) id); [congruence|reflexivity].
  - destruct (String.eqb (SQLite.key r') (SQLite.key r)) eqn:E; simpl.
    + apply String.eqb_eq in E. rewrite IH.
      destruct (String.eqb_spec (SQLite.key r') id); [congruence|reflexivity].
    + destruct (String.eqb (SQLite.key r') id); [reflexivity|exact IH].
Qed.

Lemma insert_or_replace_twice (r1 r2 : SQLite.ItemRow) (rows : list SQLite.ItemRow) :
  SQLite.key r1 = SQLite.key r2 ->
  SQLite.insert_or_replace r2 (SQLite.insert_or_replace r1 rows) =
  SQLite.insert_or_replace r2 rows.
Proof.
  intros Hk. unfold SQLite.insert_or_replace, SQLite.remove_row. f_equal.
  rewrite <- Hk. induction rows as [|r rows IH]; simpl.
  - rewrite String.eqb_refl. reflexivity.
  - destruct (String.eqb (SQLite.key r) (SQLite.key r1)) eqn:E; simpl; [exact IH|].
    rewrite E. simpl. f_equal. exact IH.
Qed.

(** SQLite lifecycle: on an open, initialised database, after storing a
    non-empty payload under a non-blank id, [exists] is true and [delete]
    returns true; afterwards [exists] is false, a second [delete] returns
    false and leaves the database as it is, and [retrieve] throws
    [NOT_FOUND]. *)
Theorem sqlite_store_then_delete (payload : list Z) (md : StorageMetadata)
    (st : SQLite.SQLiteState) :
  payload <> []%list -> is_blank (md_id md) = false ->
  SQLite.isClosed st = false -> SQLite.schema st = true ->
  let st1 := snd (SQLite.store payload md st) in
  let st2 := snd (SQLite.delete (md_id md) st1) in
  SQLite.exists_ (md_id md) st1 = (Ok true, st1) /\
  fst (SQLite.delete (md_id md) st1) = Ok true /\
  SQLite.exists_ (md_id md) st2 = (Ok false, st2) /\
  SQLite.delete (md_id md) st2 = (Ok false, st2) /\
  fst (SQLite.retrieve (md_id md) st2) =
    Throw (TacoStorageError NOT_FOUND ("Data not found for ID: " ++ md_id md) None).
Proof.
  intros Hp Hid Hc Hs st1 st2. subst st1 st2.
  rewrite (sqlite_store_ready payload md st Hp Hc Hs). simpl.
  assert (Hf : sqlite_found (md_id md)
                 (SQLite.set_items st (SQLite.insert_or_replace (SQLite.row_of_metadata md) (SQLite.items st))
                    (<[md_id md:=payload]> (SQLite.item_data st))) = true)
    by (unfold sqlite_found; simpl; rewrite find_row_insert by reflexivity; reflexivity).
  rewrite sqlite_exists_ready, Hf by assumption.
  rewrite sqlite_delete_ready, Hf by assumption. simpl.
  assert (Hg : sqlite_found (md_id md)
                 (SQLite.set_items
                    (SQLite.set_items st (SQLite.insert_or_replace (SQLite.row_of_metadata md) (SQLite.items st))
                       (<[md_id md:=payload]> (SQLite.item_data st)))
                    (SQLite.remove_row (md_id md)
                       (SQLite.insert_or_replace (SQLite.row_of_metadata md) (SQLite.items st)))
                    (delete (md_id md) (<[md_id md:=payload]> (SQLite.item_data st)))) = false)
    by (unfold sqlite_found; simpl; rewrite find_row_remove; reflexivity).
  rewrite sqlite_exists_ready, Hg by assumption.
  rewrite sqlite_delete_ready, Hg by assumption.
  rewrite sqlite_retrieve_ready by assumption. simpl. rewrite find_row_remove.
  repeat split; reflexivity.
Qed.

(** SQLite round trip: [retrieve] of the stored id returns the payload and
    the metadata given to [store], with no [ipfsHash] and with each entry
    of the message kit reduced to a byte by [Buffer.from] (so a message kit
    of bytes comes back unchanged, [to_uint8_bytes]). *)
Theorem sqlite_store_retrieve_metadata (payload : list Z) (md : StorageMetadata)
    (st : SQLite.SQLiteState) :
  payload <> []%list -> is_blank (md_id md) = false ->
  SQLite.isClosed st = false -> SQLite.schema st = true ->
  fst (SQLite.retrieve (md_id md) (snd (SQLite.store payload md st))) =
    Ok (payload, {| md_id := md_id md; md_contentType := md_contentType md;
                    md_size := md_size md; md_createdAt := md_createdAt md;
                    md_metadata := md_metadata md; md_messageKit := to_uint8 (md_messageKit md);
                    md_conditions := md_conditions md; md_ipfsHash := None |}).
Proof.
  intros Hp Hid Hc Hs. rewrite (sqlite_store_ready payload md st Hp Hc Hs). simpl.
  rewrite sqlite_retrieve_ready by assumption. simpl.
  rewrite find_row_insert by reflexivity. rewrite lookup_insert_eq. reflexivity.
Qed.

(** SQLite [INSERT OR REPLACE]: storing twice under the same id leaves the
    database as if only the second store had happened. *)
Theorem sqlite_store_same_id_overwrites (p1 p2 : list Z) (md1 md2 : StorageMetadata)
    (st : SQLite.SQLiteState) :
  p1 <> []%list -> p2 <> []%list -> md_id md1 = md_id md2 ->
  SQLite.isClosed st = false -> SQLite.schema st = true ->
  snd (SQLite.store p2 md2 (snd (SQLite.store p1 md1 st))) = snd (SQLite.store p2 md2 st).
Proof.
  intros Hp1 Hp2 Hid Hc Hs. rewrite (sqlite_store_ready p1 md1 st Hp1 Hc Hs). simpl.
  rewrite sqlite_store_ready by assumption. rewrite sqlite_store_ready by assumption.
  simpl. unfold SQLite.set_items. simpl. f_equal.
  - apply insert_or_replace_twice. exact Hid.
  - rewrite Hid. apply insert_insert_eq.
Qed.

(** SQLite frame: storing under one id does not change what [retrieve] and
    [exists] report for any other id. *)
Theorem sqlite_store_frame (payload : list Z) (md : StorageMetadata) (id : string)
    (st : SQLite.SQLiteState) :
  payload <> []%list -> is_blank id = false -> id <> md_id md ->
  SQLite.isClosed st = false -> SQLite.schema st = true ->
  fst (SQLite.retrieve id (snd (SQLite.store payload md st))) = fst (SQLite.retrieve id st) /\
  fst (SQLite.exists_ id (snd (SQLite.store payload md st))) = fst (SQLite.exists_ id st).
Proof.
  intros Hp Hid Hne Hc Hs. rewrite (sqlite_store_ready payload md st Hp Hc Hs). simpl.
  rewrite !sqlite_retrieve_ready, !sqlite_exists_ready by assumption.
  unfold sqlite_found. simpl.
  rewrite find_row_insert_ne by (simpl; congruence).
  rewrite lookup_insert_ne by congruence. split; reflexivity.
Qed.

(** SQLite after [cleanup] (closing modelled as succeeding): the database
    is closed and keeps its rows, a second [cleanup] does nothing,
    [initialize] throws [ADAPTER_ERROR] "Database is closed", [store],
    [exists] and [delete] throw [STORAGE_ERROR], [retrieve] and [list]
    throw [RETRIEVAL_ERROR], and [getHealth] reports unhealthy without
    throwing. *)
Theorem sqlite_closed_database (st : SQLite.SQLiteState) :
  let st' := snd (SQLite.cleanup st) in
  fst (SQLite.cleanup st) = Ok tt /\ SQLite.isClosed st' = true /\
  SQLite.items st' = SQLite.items st /\
  SQLite.cleanup st' = (Ok tt, st') /\
  SQLite.initialize st' = (Throw (TacoStorageError ADAPTER_ERROR "Database is closed" None), st') /\
  (forall payload md, payload <> []%list ->
     exists m e, SQLite.store payload md st' = (Throw (TacoStorageError STORAGE_ERROR m (Some e)), st')) /\
  (forall id, is_blank id = false ->
     (exists m e, SQLite.retrieve id st' = (Throw (TacoStorageError RETRIEVAL_ERROR m (Some e)), st')) /\
     (exists m e, SQLite.exists_ id st' = (Throw (TacoStorageError STORAGE_ERROR m (Some e)), st')) /\
     (exists m e, SQLite.delete id st' = (Throw (TacoStorageError STORAGE_ERROR m (Some e)), st'))) /\
  (forall limit offset, exists m e,
     SQLite.list_ limit offset st' = (Throw (TacoStorageError RETRIEVAL_ERROR m (Some e)), st')) /\
  exists h, SQLite.getHealth st' = (Ok h, st') /\ healthy h = false.
Proof.
  intros st'.
  assert (Hst' : st' = SQLite.set_flags st true (SQLite.schema st)).
  { subst st'. unfold SQLite.cleanup. mrun. destruct st as [? [] ? ? ? ? ?]; reflexivity. }
  clearbody st'. subst st'.
  split; [unfold SQLite.cleanup; mrun; destruct (SQLite.isClosed st); reflexivity|].
  split; [reflexivity|]. split; [reflexivity|]. split; [reflexivity|].
  split; [reflexivity|].
  split; [intros [|b bs] md Hp; [congruence|]; do 2 eexists; reflexivity|].
  split.
  { intros id Hid. unfold SQLite.delete, SQLite.retrieve, SQLite.exists_, validateId.
    mrun. simpl. rewrite !Hid. simpl. split; [|split]; do 2 eexists; reflexivity. }
  split; [intros limit offset; do 2 eexists; reflexivity|].
  eexists; split; reflexivity.
Qed.

(** SQLite [getHealth] never throws or changes the database, and reports
    healthy exactly when the database is open, initialised, and
    [PRAGMA integrity_check] answers ["ok"]. *)
Theorem sqlite_health (st : SQLite.SQLiteState) :
  exists h, SQLite.getHealth st = (Ok h, st) /\
            healthy h = negb (SQLite.isClosed st) && SQLite.schema st &&
                        String.eqb (SQLite.integrity st) "ok".
Proof.
  unfold SQLite.getHealth, SQLite.db_ready. mrun.
  destruct (SQLite.isClosed st), (SQLite.schema st), (SQLite.notADatabase st);
    eexists; split; reflexivity.
Qed.

Lemma kubo_store_ready (cids : CidLib) (payload : list Z) (md : StorageMetadata)
    (st : Kubo.KuboState) :
  payload <> []%list -> Kubo.client st = true -> Kubo.node_up st = true ->
  let h := cid_of cids (IPFS.dataPackage payload md) in
  Kubo.store cids payload md st =
    (Ok {| sr_id := md_id md; sr_reference := formatReference h;
           sr_metadata := with_ipfsHash h md |},
     Kubo.set_store st (<[h := IPFS.dataPackage payload md]> (Kubo.blocks st))
       (if Kubo.shouldPin st then {[h]} ∪ Kubo.pins st else Kubo.pins st)).
Proof.
  intros Hp Hc Hn h. destruct payload as [|b bs]; [congruence|].
  unfold Kubo.store, validateData, Kubo.addContent, Kubo.ensureClient, Kubo.node_call.
  mrun. simpl. rewrite Hc, Hn. reflexivity.
Qed.

(** Kubo [delete] only unpins: after a pinned [store], deleting by the
    returned reference returns true and removes the pin, yet [exists] stays
    true and [retrieve] still returns the payload and metadata; deleting
    again still returns true. *)
Theorem kubo_delete_only_unpins (cids : CidLib) (payload : list Z) (md : StorageMetadata)
    (st : Kubo.KuboState) :
  payload <> []%list -> (forall pkg, cid_valid cids (cid_of cids pkg) = true) ->
  Kubo.client st = true -> Kubo.node_up st = true -> Kubo.shouldPin st = true ->
  let h := cid_of cids (IPFS.dataPackage payload md) in
  let st1 := snd (Kubo.store cids payload md st) in
  let st2 := snd (Kubo.delete (formatReference h) st1) in
  (h ∈ Kubo.pins st1) /\
  fst (Kubo.delete (formatReference h) st1) = Ok true /\
  (h ∉ Kubo.pins st2) /\
  fst (Kubo.exists_ cids (formatReference h) st2) = Ok true /\
  fst (Kubo.retrieve cids (formatReference h) st2) = Ok (payload, md) /\
  fst (Kubo.delete (formatReference h) st2) = Ok true.
Proof.
  intros Hp Hcid Hc Hn Hpin h st1 st2. subst st1 st2.
  assert (Hv : cid_valid cids h = true) by apply Hcid.
  rewrite (kubo_store_ready cids payload md st Hp Hc Hn). fold h.
  unfold Kubo.delete, Kubo.exists_, Kubo.retrieve, validateId,
    IPFS.validateAndParseReference, Kubo.unpinContent, Kubo.contentExists, Kubo.getContent,
    Kubo.ensureClient, Kubo.node_call.
  rewrite !is_blank_format, !parseReference_format, !Hv. mrun. simpl.
  do 3 (rewrite ?Hpin, ?Hc, ?Hn; simpl).
  rewrite bool_decide_true by set_solver. simpl.
  do 3 (rewrite ?Hpin, ?Hc, ?Hn; simpl).
  rewrite bool_decide_false by set_solver. simpl.
  rewrite lookup_insert_eq. simpl.
  repeat split; try reflexivity; set_solver.
Qed.

(** Kubo [initialize] with the node down throws [ADAPTER_ERROR] but has
    already created the client, so a later [store] fails with the node's
    connection error wrapped as [STORAGE_ERROR], not with "not
    initialized". *)
Theorem kubo_failed_initialize (cids : CidLib) (st : Kubo.KuboState)
    (payload : list Z) (md : StorageMetadata) :
  Kubo.node_up st = false -> payload <> []%list ->
  let st1 := snd (Kubo.initialize st) in
  fst (Kubo.initialize st) =
    Throw (TacoStorageError ADAPTER_ERROR
      "Failed to initialize Kubo IPFS adapter - check that IPFS node is running and accessible"
      (Some (PlainError "fetch failed" None))) /\
  Kubo.client st1 = true /\
  Kubo.store cids payload md st1 =
    (Throw (TacoStorageError STORAGE_ERROR
              "Failed to store data on IPFS: fetch failed"
              (Some (PlainError "fetch failed" None))), st1).
Proof.
  intros Hn Hp st1. subst st1.
  destruct payload as [|b bs]; [congruence|].
  unfold Kubo.initialize, Kubo.store, validateData, Kubo.addContent, Kubo.ensureClient,
    Kubo.node_call.
  mrun. do 2 (rewrite ?Hn; simpl). repeat split; reflexivity.
Qed.

(** Kubo [retrieve] of a non-blank id never changes the adapter and either
    succeeds or throws a [RETRIEVAL_ERROR] wrapping the cause: none of the
    failures (no client, a hash that is not a CID, the node down, a block
    the node does not hold until the request times out) carries the code
    [ERR_NOT_FOUND] that its [NOT_FOUND] branch tests.  In particular, on
    an adapter without a client the "not initialized" [ADAPTER_ERROR] is
    wrapped, and a reference whose hash is not a valid CID gives the
    wrapped "Invalid IPFS reference format" error. *)
Theorem kubo_retrieve_errors (cids : CidLib) (id : string) (st : Kubo.KuboState) :
  is_blank id = false ->
  ((exists d md, Kubo.retrieve cids id st = (Ok (d, md), st)) \/
   (exists m e, Kubo.retrieve cids id st =
                  (Throw (TacoStorageError RETRIEVAL_ERROR m (Some e)), st))) /\
  (Kubo.client st = false -> cid_valid cids (parseReference id) = true ->
   Kubo.retrieve cids id st =
     (Throw (TacoStorageError RETRIEVAL_ERROR
        "Failed to retrieve data from IPFS: Kubo IPFS adapter not initialized. Call initialize() first."
        (Some (TacoStorageError ADAPTER_ERROR
                 "Kubo IPFS adapter not initialized. Call initialize() first." None))), st)) /\
  (cid_valid cids (parseReference id) = false ->
   Kubo.retrieve cids id st =
     (Throw (TacoStorageError RETRIEVAL_ERROR
        ("Failed to retrieve data from IPFS: Invalid IPFS reference format: " ++ id)
        (Some (TacoStorageError UNDEFINED_TYPE ("Invalid IPFS reference format: " ++ id) None))),
      st)).
Proof.
  intros Hid.
  unfold Kubo.retrieve, validateId, IPFS.validateAndParseReference, Kubo.getContent,
    Kubo.ensureClient, Kubo.node_call.
  mrun. rewrite Hid. split; [|split].
  - destruct (cid_valid cids (parseReference id)); [|right; do 2 eexists; reflexivity].
    destruct (Kubo.client st); [|right; do 2 eexists; reflexivity].
    destruct (Kubo.node_up st); [|right; do 2 eexists; reflexivity].
    destruct (Kubo.blocks st !! parseReference id);
      [left; do 2 eexists; reflexivity|right; do 2 eexists; reflexivity].
  - intros Hc Hv. rewrite Hv, Hc. reflexivity.
  - intros Hv. rewrite Hv. reflexivity.
Qed.

(** Kubo [getHealth] never throws or changes the adapter, and reports
    healthy exactly when the client exists and the node answers. *)
Theorem kubo_health (st : Kubo.KuboState) :
  exists h, Kubo.getHealth st = (Ok h, st) /\
            healthy h = Kubo.client st && Kubo.node_up st.
Proof.
  unfold Kubo.getHealth, Kubo.ensureClient, Kubo.node_call. mrun.
  destruct (Kubo.client st), (Kubo.node_up st); eexists; split; reflexivity.
Qed.

Lemma helia_store_ready (cids : CidLib) (payload : list Z) (md : StorageMetadata)
    (st : Helia.HeliaState) :
  payload <> []%list -> Helia.ready st = true ->
  (forall pkg, cid_valid cids (cid_of cids pkg) = true) ->
  let h := cid_of cids (IPFS.dataPackage payload md) in
  Helia.store cids payload md st =
    (Ok {| sr_id := md_id md; sr_reference := formatReference h;
           sr_metadata := with_ipfsHash h md |},
     {| Helia.ready := true;
        Helia.blocks := <[h := IPFS.dataPackage payload md]> (Helia.blocks st) |}).
Proof.
  intros Hp Hr Hcid h. destruct payload as [|b bs]; [congruence|].
  unfold Helia.store, validateData, Helia.addContent, Helia.pinContent,
    Helia.ensureHeliaReady, IPFS.parseCID.
  mrun. simpl. rewrite Hr. simpl. rewrite Hr, Hcid. reflexivity.
Qed.

(** Helia [delete] is a no-op: the unpin it calls makes no change, so on
    an initialised adapter [delete] of any non-blank id returns true and
    leaves the adapter as it is.  After a [store] of a non-empty payload,
    which adds its envelope to the blockstore (and pins nothing), [delete]
    by the returned reference therefore leaves [exists] true and [retrieve]
    returning the payload and metadata. *)
Theorem helia_delete_keeps_content (cids : CidLib) (payload : list Z)
    (md : StorageMetadata) (st : Helia.HeliaState) :
  payload <> []%list -> Helia.ready st = true ->
  (forall pkg, cid_valid cids (cid_of cids pkg) = true) ->
  let h := cid_of cids (IPFS.dataPackage payload md) in
  let st1 := snd (Helia.store cids payload md st) in
  Helia.blocks st1 = <[h := IPFS.dataPackage payload md]> (Helia.blocks st) /\
  (forall id, is_blank id = false -> Helia.delete cids id st1 = (Ok true, st1)) /\
  fst (Helia.exists_ cids (formatReference h) st1) = Ok true /\
  fst (Helia.retrieve cids (formatReference h) st1) = Ok (payload, md).
Proof.
  intros Hp Hr Hcid h st1. subst st1.
  assert (Hv : cid_valid cids h = true) by apply Hcid.
  rewrite (helia_store_ready cids payload md st Hp Hr Hcid). fold h. simpl.
  split; [reflexivity|]. split.
  - intros id Hid. unfold Helia.delete, validateId, Helia.unpinContent,
      Helia.ensureHeliaReady, IPFS.parseCID. mrun. rewrite Hid. simpl.
    destruct (cid_valid cids (parseReference id)); reflexivity.
  - unfold Helia.exists_, Helia.retrieve, validateId,
      IPFS.validateAndParseReference, Helia.contentExists,
      Helia.getContent, Helia.ensureHeliaReady, IPFS.parseCID.
    rewrite !is_blank_format, !parseReference_format, !Hv. mrun. simpl.
    rewrite ?Hv. simpl. rewrite lookup_insert_eq. simpl. split; reflexivity.
Qed.

(** Helia after [cleanup]: [getHealth] reports unhealthy, [store] throws a
    [STORAGE_ERROR] wrapping the "not initialized" [ADAPTER_ERROR], and
    [delete] (and [exists] of a valid CID) let that [ADAPTER_ERROR]
    propagate unwrapped. *)
Theorem helia_after_cleanup (cids : CidLib) (st : Helia.HeliaState) (payload : list Z)
    (md : StorageMetadata) (id : string) :
  let st' := snd (Helia.cleanup st) in
  let not_init := TacoStorageError ADAPTER_ERROR
                    "Helia IPFS adapter not initialized. Call initialize() first." None in
  payload <> []%list -> is_blank id = false ->
  (exists h, Helia.getHealth st' = (Ok h, st') /\ healthy h = false) /\
  Helia.store cids payload md st' =
    (Throw (TacoStorageError STORAGE_ERROR
       "Failed to store data using Helia: Helia IPFS adapter not initialized. Call initialize() first."
       (Some not_init)), st') /\
  Helia.delete cids id st' = (Throw not_init, st') /\
  (cid_valid cids (parseReference id) = true ->
   Helia.exists_ cids id st' = (Throw not_init, st')).
Proof.
  intros st' not_init Hp Hid. subst st' not_init.
  destruct payload as [|b bs]; [congruence|].
  unfold Helia.cleanup, Helia.getHealth, Helia.store, Helia.delete, Helia.exists_,
    validateData, validateId, IPFS.validateAndParseReference, Helia.addContent,
    Helia.unpinContent, Helia.contentExists, Helia.ensureHeliaReady.
  mrun. simpl. rewrite Hid. split; [|split; [|split]].
  - eexists; split; reflexivity.
  - reflexivity.
  - reflexivity.
  - intros Hv. rewrite Hv. reflexivity.
Qed.

(** Pinata before [initialize]: [store], [retrieve], [delete] and [exists]
    throw the "not initialized" [ADAPTER_ERROR] unwrapped and change
    nothing, and [getHealth] reports unhealthy without throwing. *)
Theorem pinata_uninitialized (st : Pinata.PinataState) (payload : list Z)
    (md : StorageMetadata) (id : string) :
  let not_init := TacoStorageError ADAPTER_ERROR
                    "Pinata adapter not initialized. Call initialize() first." None in
  Pinata.client st = false -> payload <> []%list -> is_blank id = false ->
  Pinata.store payload md st = (Throw not_init, st) /\
  Pinata.retrieve id st = (Throw not_init, st) /\
  Pinata.delete id st = (Throw not_init, st) /\
  Pinata.exists_ id st = (Throw not_init, st) /\
  (exists h, Pinata.getHealth st = (Ok h, st) /\ healthy h = false).
Proof.
  intros not_init Hc Hp Hid. subst not_init.
  destruct payload as [|b bs]; [congruence|].
  unfold Pinata.store, Pinata.retrieve, Pinata.delete, Pinata.exists_, Pinata.getHealth,
    validateData, validateId, Pinata.ensureClient.
  mrun. rewrite Hid, Hc. simpl. rewrite ?Hc.
  repeat split; try reflexivity. eexists; split; reflexivity.
Qed.


(** Pinata [retrieve] on an initialised adapter either succeeds or throws a
    [STORAGE_ERROR] wrapping the cause; it never throws [NOT_FOUND]. *)
Theorem pinata_retrieve_wraps_failures (st : Pinata.PinataState) (id : string) :
  Pinata.client st = true -> is_blank id = false ->
  (exists r, Pinata.retrieve id st = (Ok r, st)) \/
  (exists m e, Pinata.retrieve id st = (Throw (TacoStorageError STORAGE_ERROR m (Some e)), st)).
Proof.
  intros Hc Hid.
  unfold Pinata.retrieve, Pinata.gateway_get, validateId, Pinata.ensureClient.
  mrun. rewrite Hid, Hc. simpl.
  destruct (negb (Pinata.online st)); [right; do 2 eexists; reflexivity|].
  destruct (List.find _ _); [left; eexists; reflexivity|right; do 2 eexists; reflexivity].
Qed.

(** Pinata [delete] on an initialised adapter returns true whatever the
    service answers: online, no file with that upload id remains; offline,
    nothing changes. *)
Theorem pinata_delete_always_true (st : Pinata.PinataState) (id : string) :
  Pinata.client st = true -> is_blank id = false ->
  let st' := snd (Pinata.delete id st) in
  fst (Pinata.delete id st) = Ok true /\
  (Pinata.online st = true -> forall f, In f (Pinata.files st') -> fst (fst f) <> id) /\
  (Pinata.online st = false -> st' = st).
Proof.
  intros Hc Hid st'. subst st'.
  unfold Pinata.delete, Pinata.files_delete, validateId, Pinata.ensureClient.
  mrun. rewrite Hid, Hc. simpl.
  destruct (Pinata.online st) eqn:Ho; simpl.
  - split; [reflexivity|split; [|discriminate]].
    intros _ f Hf. apply filter_In in Hf as [_ Hf].
    intros E. subst id. rewrite String.eqb_refl in Hf. discriminate.
  - split; [reflexivity|split; [discriminate|reflexivity]].
Qed.

(** [TacoStorage.store] with no condition and an [expiresAt] not after now
    throws [INVALID_CONFIG] "End time must be in the future", before any
    encryption or adapter call. *)
Theorem taco_store_past_expiry_rejected {S MK : Type} (adapter : IStorageAdapter S)
    (lib : TacoLib MK) (data : Data) (signer : string) (options : StoreOptions)
    (w : World S) (t : Z) :
  data_empty data = false -> o_condition options = None -> o_expiresAt options = Some t ->
  (t <= w_now w)%Z ->
  TacoStorage.store adapter lib data signer options w =
    (Throw (TacoStorageError INVALID_CONFIG "End time must be in the future" None), w).
Proof.
  intros He Hc Hx Ht.
  unfold TacoStorage.store, TacoStorage.createTimeCondition, TacoStorage.rethrow_or_wrap.
  mrun. rewrite He, Hc, Hx. apply Z.leb_le in Ht. rewrite Ht. reflexivity.
Qed.

(** [TacoStorage.store] defaults: with no condition and no [expiresAt] it
    encrypts under a time condition 24 hours after now, in seconds; the
    metadata records that condition and the creation time, and an absent or
    empty [id] or [contentType] falls back to a fresh UUID and
    "application/octet-stream". *)
Theorem taco_store_defaults {S MK : Type} (adapter : IStorageAdapter S)
    (lib : TacoLib MK) (data : Data) (signer : string) (options : StoreOptions)
    (w : World S) (mk : MK) :
  data_empty data = false -> w_encInit w = true ->
  o_condition options = None -> o_expiresAt options = None ->
  let cond := JObj [("conditionType", JStr "time"); ("chain", JNum 80001);
                    ("method", JStr "blocktime");
                    ("returnValueTest",
                       JObj [("comparator", JStr "<=");
                             ("value", JNum ((w_now w + 86400000) / 1000)%Z)])] in
  taco_encrypt lib data cond signer = Ok mk ->
  exists md,
    w_trace (snd (TacoStorage.store adapter lib data signer options w)) =
      (w_trace w ++ [CallEncrypt data cond; CallAdapterStore (toBytes lib mk) md])%list /\
    md_conditions md = cond /\ md_createdAt md = w_now w /\
    (o_id options = None \/ o_id options = Some "" -> md_id md = uuidv4 lib) /\
    (o_contentType options = None \/ o_contentType options = Some "" ->
     md_contentType md = "application/octet-stream").
Proof.
  intros He Hi Hc Hx cond Henc.
  unfold TacoStorage.store, TacoStorage.enc_encrypt, TacoStorage.enc_initialize,
    TacoStorage.adapter_store, TacoStorage.record_call, TacoStorage.lift,
    TacoStorage.createTimeCondition, TacoStorage.rethrow_or_wrap.
  mrun. rewrite He, Hc, Hx.
  destruct w as [s init now tr]; simpl in *. subst init.
  change (24 * 60 * 60 * 1000)%Z with 86400000%Z.
  assert (Hlt : Z.leb (now + 86400000) now = false) by (apply Z.leb_gt; lia).
  rewrite Hlt. simpl. fold cond. rewrite ?He. simpl. rewrite Henc. simpl.
  destruct (a_store adapter _ _ _) as [[r|e] s'];
    [|destruct (is_taco_error e)]; simpl;
  (eexists; split; [rewrite <- app_assoc; reflexivity|]);
  simpl; (split; [reflexivity|split; [reflexivity|]]);
  (split; [intros [E|E]; rewrite E; reflexivity|intros [E|E]; rewrite E; reflexivity]).
Qed.

(** [TacoStorage.getMetadata] over SQLite returns the stored metadata
    without decrypting: the world, including an uninitialised encryption
    service, is left as it is. *)
Theorem taco_getMetadata_sqlite_no_decrypt (id : string) (w : World SQLite.SQLiteState)
    (r : SQLite.ItemRow) :
  is_blank id = false -> SQLite.isClosed (w_adapter w) = false ->
  SQLite.schema (w_adapter w) = true ->
  SQLite.find_row id (SQLite.items (w_adapter w)) = Some r ->
  TacoStorage.getMetadata SQLite.adapter id w = (Ok (SQLite.metadata_of_row r), w).
Proof.
  intros Hid Hc Hs Hf.
  assert (Hne : String.eqb id "" = false).
  { destruct id; [discriminate|reflexivity]. }
  unfold TacoStorage.getMetadata, TacoStorage.check_id, TacoStorage.lift. mrun.
  rewrite Hne. cbn [SQLite.adapter a_retrieve].
  rewrite (sqlite_retrieve_ready id (w_adapter w) Hid Hc Hs), Hf.
  destruct w; reflexivity.
Qed.

(** [TacoStorage.list] over the Kubo, Helia and Pinata adapters throws
    [ADAPTER_ERROR] "List operation not supported by this adapter" without
    touching the adapter. *)
Theorem taco_list_unsupported_ipfs_pinata (cids : CidLib) (limit offset : option Z)
    (wk : World Kubo.KuboState) (wh : World Helia.HeliaState)
    (wp : World Pinata.PinataState) :
  let err := TacoStorageError ADAPTER_ERROR "List operation not supported by this adapter" None in
  TacoStorage.list_ (Kubo.adapter cids) limit offset wk = (Throw err, wk) /\
  TacoStorage.list_ (Helia.adapter cids) limit offset wh = (Throw err, wh) /\
  TacoStorage.list_ Pinata.adapter limit offset wp = (Throw err, wp).
Proof.
  repeat split; reflexivity.
Qed.

(** [TacoStorage.retrieve], [getMetadata], [delete] and [exists] reject the
    empty id with [INVALID_CONFIG] before calling the adapter. *)
Theorem taco_empty_id_guard {S MK : Type} (adapter : IStorageAdapter S) (lib : TacoLib MK)
    (signer : string) (w : World S) :
  let err := TacoStorageError INVALID_CONFIG "ID must be a non-empty string" None in
  TacoStorage.retrieve adapter lib "" signer w = (Throw err, w) /\
  TacoStorage.getMetadata adapter "" w = (Throw err, w) /\
  TacoStorage.delete adapter "" w = (Throw err, w) /\
  TacoStorage.exists_ adapter "" w = (Throw err, w).
Proof.
  repeat split; reflexivity.
Qed.

(** A whitespace-only id passes the [TacoStorage] guard but not the
    adapter's [validateId]: over SQLite, [exists] and [delete] throw
    [STORAGE_ERROR] and [getMetadata] throws [RETRIEVAL_ERROR], each
    wrapping the plain "Invalid ID" error. *)
Theorem taco_blank_id_sqlite (id : string) (w : World SQLite.SQLiteState) :
  id <> "" -> is_blank id = true ->
  let inner := PlainError "Invalid ID: must be a non-empty string" None in
  TacoStorage.exists_ SQLite.adapter id w =
    (Throw (TacoStorageError STORAGE_ERROR
              "Failed to check existence: Invalid ID: must be a non-empty string"
              (Some inner)), w) /\
  TacoStorage.delete SQLite.adapter id w =
    (Throw (TacoStorageError STORAGE_ERROR
              "Failed to delete data: Invalid ID: must be a non-empty string"
              (Some inner)), w) /\
  TacoStorage.getMetadata SQLite.adapter id w =
    (Throw (TacoStorageError RETRIEVAL_ERROR
              "Failed to get metadata: Invalid ID: must be a non-empty string"
              (Some inner)), w).
Proof.
  intros Hne Hb inner. subst inner.
  assert (Hne' : String.eqb id "" = false) by (apply String.eqb_neq; exact Hne).
  unfold TacoStorage.exists_, TacoStorage.delete, TacoStorage.getMetadata,
    TacoStorage.check_id, TacoStorage.lift, TacoStorage.wrap, TacoStorage.rethrow_or_wrap.
  cbn [SQLite.adapter a_retrieve a_delete a_exists].
  unfold SQLite.exists_, SQLite.delete, SQLite.retrieve, validateId. mrun.
  rewrite Hne', Hb. destruct w; repeat split; reflexivity.
Qed.

(** [TacoStorage.cleanup] over SQLite (closing modelled as succeeding)
    returns normally and closes the database with its rows kept;
    [getHealth] then reports unhealthy, and [initialize] throws
    [ADAPTER_ERROR] "Database is closed". *)
Theorem taco_cleanup_sqlite {MK : Type} (lib : TacoLib MK) (w : World SQLite.SQLiteState) :
  let w' := snd (TacoStorage.cleanup SQLite.adapter w) in
  fst (TacoStorage.cleanup SQLite.adapter w) = Ok tt /\
  SQLite.isClosed (w_adapter w') = true /\
  SQLite.items (w_adapter w') = SQLite.items (w_adapter w) /\
  (exists h, TacoStorage.getHealth SQLite.adapter w' = (Ok h, w') /\ healthy h = false) /\
  TacoStorage.initialize SQLite.adapter lib w' =
    (Throw (TacoStorageError ADAPTER_ERROR "Database is closed" None), w').
Proof.
  intros w'. subst w'.
  unfold TacoStorage.cleanup, TacoStorage.getHealth, TacoStorage.initialize,
    TacoStorage.lift, TacoStorage.wrap.
  cbn [SQLite.adapter a_cleanup a_getHealth a_initialize].
  unfold SQLite.cleanup, SQLite.getHealth, SQLite.initialize, SQLite.db_ready. mrun.
  destruct w as [[p c sc its dat] init now tr]; destruct c; simpl;
    (split; [reflexivity|split; [reflexivity|split; [reflexivity|split]]]);
    try (eexists; split; reflexivity); reflexivity.
Qed.

(** [TacoStorage.initialize] initialises the adapter first: an adapter
    failure propagates unchanged and TACo is not initialised; TACo is
    initialised at most once, and its failure becomes [ENCRYPTION_ERROR]
    "Failed to initialize TACo system". *)
Theorem taco_initialize_order {S MK : Type} (adapter : IStorageAdapter S) (lib : TacoLib MK)
    (w : World S) :
  let w1 := {| w_adapter := snd (a_initialize adapter (w_adapter w));
               w_encInit := w_encInit w; w_now := w_now w; w_trace := w_trace w |} in
  (forall e, fst (a_initialize adapter (w_adapter w)) = Throw e ->
   TacoStorage.initialize adapter lib w = (Throw e, w1)) /\
  (fst (a_initialize adapter (w_adapter w)) = Ok tt -> w_encInit w = true ->
   TacoStorage.initialize adapter lib w = (Ok tt, w1)) /\
  (fst (a_initialize adapter (w_adapter w)) = Ok tt -> w_encInit w = false ->
   forall e, taco_initialize lib = Throw e ->
   TacoStorage.initialize adapter lib w =
     (Throw (TacoStorageError ENCRYPTION_ERROR "Failed to initialize TACo system" (Some e)), w1)) /\
  (fst (a_initialize adapter (w_adapter w)) = Ok tt -> taco_initialize lib = Ok tt ->
   TacoStorage.initialize adapter lib w =
     (Ok tt, {| w_adapter := w_adapter w1; w_encInit := true; w_now := w_now w;
                w_trace := w_trace w |})).
Proof.
  intros w1. subst w1.
  unfold TacoStorage.initialize, TacoStorage.lift, TacoStorage.enc_initialize. mrun.
  destruct (a_initialize adapter (w_adapter w)) as [[[]|e] s']; simpl;
    (split; [|split; [|split]]); intros; try discriminate.
  - destruct (w_encInit w); [reflexivity|discriminate].
  - match goal with H : w_encInit w = false |- _ => rewrite H end.
    match goal with H : taco_initialize lib = _ |- _ => rewrite H end. reflexivity.
  - destruct (w_encInit w) eqn:Ei.
    + destruct w; simpl in *; subst; reflexivity.
    + match goal with H : taco_initialize lib = _ |- _ => rewrite H end. reflexivity.
  - congruence.
Qed.


(** [TacoStorage.createWithKubo] with the node down throws the Kubo
    [ADAPTER_ERROR] and leaves TACo uninitialised. *)
Theorem createWithKubo_node_down (cids : CidLib) {MK : Type} (lib : TacoLib MK)
    (node : Kubo.KuboState) (now : Z) :
  Kubo.node_up node = false ->
  fst (createWithKubo cids lib node now) =
    Throw (TacoStorageError ADAPTER_ERROR
      "Failed to initialize Kubo IPFS adapter - check that IPFS node is running and accessible"
      (Some (PlainError "fetch failed" None))) /\
  w_encInit (snd (createWithKubo cids lib node now)) = false.
Proof.
  intros Hn.
  unfold createWithKubo, new_storage, TacoStorage.initialize, TacoStorage.lift.
  cbn [Kubo.adapter a_initialize].
  unfold Kubo.initialize, Kubo.node_call. mrun. simpl. rewrite Hn. split; reflexivity.
Qed.

Lemma filter_missing_nil (req config : list string) :
  List.filter (fun k => negb (existsb (String.eqb k) config)) req = [] <->
  Forall (fun k => In k config) req.
Proof.
  induction req as [|k req IH]; simpl.
  - split; auto.
  - destruct (existsb (String.eqb k) config) eqn:E; simpl.
    + rewrite IH. split; intros H.
      * constructor; [|exact H]. apply existsb_exists in E as [x [Hx Ex]].
        apply String.eqb_eq in Ex. subst x. exact Hx.
      * inversion H; assumption.
    + split; intros H; [discriminate|].
      inversion H as [|? ? Hin _]; subst.
      assert (existsb (String.eqb k) config = true) by
        (apply existsb_exists; exists k; split; [exact Hin|apply String.eqb_refl]).
      congruence.
Qed.

(** [validateConfig] changes nothing, succeeds exactly when every required
    key is present, and otherwise throws an [INVALID_CONFIG] error. *)
Theorem validateConfig_spec {S : Type} (requiredKeys config : list string) (s : S) :
  snd (validateConfig requiredKeys config s) = s /\
  (fst (validateConfig requiredKeys config s) = Ok tt <->
   Forall (fun k => In k config) requiredKeys) /\
  (forall e, fst (validateConfig requiredKeys config s) = Throw e ->
   exists msg, e = TacoStorageError INVALID_CONFIG msg None).
Proof.
  unfold validateConfig. mrun.
  pose proof (filter_missing_nil requiredKeys config) as Hf.
  destruct (List.filter _ requiredKeys) as [|k ks]; simpl.
  - split; [reflexivity|split; [split; [intros _; apply Hf; reflexivity|reflexivity]|]].
    intros e He; discriminate.
  - split; [reflexivity|split].
    + split; [discriminate|intros H; apply Hf in H; discriminate].
    + intros e He. inversion He. eexists; reflexivity.
Qed.

(** A hash not starting with "ipfs://" is its own parsed reference, and its
    "ipfs://" form parses to the same hash. *)
Theorem reference_forms_agree (h : string) :
  String.prefix "ipfs://" h = false ->
  parseReference h = h /\ parseReference (formatReference h) = parseReference h.
Proof.
  intros Hp. unfold parseReference at 1 3. rewrite Hp.
  split; [reflexivity|]. apply parseReference_format.
Qed.

(** *** Witnesses *)

Lemma sqlite_store_then_delete_witness :
  is_blank "k1" = false /\
  SQLite.exists_ "k1" (snd (SQLite.delete "k1"
      (snd (SQLite.store [255; 1; 2; 3]%Z demo_md (sqlite_ready [] ∅))))) =
    (Ok false, snd (SQLite.delete "k1"
      (snd (SQLite.store [255; 1; 2; 3]%Z demo_md (sqlite_ready [] ∅))))).
Proof.
  split; [reflexivity|].
  pose proof (sqlite_store_then_delete [255; 1; 2; 3]%Z demo_md (sqlite_ready [] ∅)
                ltac:(discriminate) eq_refl eq_refl eq_refl) as H.
  cbv zeta in H. destruct H as (_ & _ & H & _). exact H.
Defined.

Lemma sqlite_store_retrieve_metadata_witness :
  is_blank "k1" = false /\
  fst (SQLite.retrieve "k1" (snd (SQLite.store [255; 1; 2; 3]%Z demo_md (sqlite_ready [] ∅)))) =
    Ok ([255; 1; 2; 3]%Z, demo_md).
Proof.
  split; [reflexivity|].
  exact (sqlite_store_retrieve_metadata [255; 1; 2; 3]%Z demo_md (sqlite_ready [] ∅)
           ltac:(discriminate) eq_refl eq_refl eq_refl).
Defined.

Lemma sqlite_store_same_id_overwrites_witness :
  snd (SQLite.store [2]%Z demo_md (snd (SQLite.store [1]%Z demo_md (sqlite_ready [] ∅)))) =
  snd (SQLite.store [2]%Z demo_md (sqlite_ready [] ∅)).
Proof.
  exact (sqlite_store_same_id_overwrites [1]%Z [2]%Z demo_md demo_md (sqlite_ready [] ∅)
           ltac:(discriminate) ltac:(discriminate) eq_refl eq_refl eq_refl).
Defined.

Lemma sqlite_store_frame_witness :
  "k2" <> md_id demo_md /\
  fst (SQLite.retrieve "k2" (snd (SQLite.store [1]%Z demo_md (sqlite_ready [demo_row "k2"] ∅)))) =
  fst (SQLite.retrieve "k2" (sqlite_ready [demo_row "k2"] ∅)).
Proof.
  split; [discriminate|].
  exact (proj1 (sqlite_store_frame [1]%Z demo_md "k2" (sqlite_ready [demo_row "k2"] ∅)
                  ltac:(discriminate) eq_refl ltac:(discriminate) eq_refl eq_refl)).
Defined.

Lemma kubo_delete_only_unpins_witness :
  fst (Kubo.exists_ demo_cids "ipfs://bafyk1"
         (snd (Kubo.delete "ipfs://bafyk1"
                 (snd (Kubo.store demo_cids [255; 1; 2; 3]%Z demo_md kubo_ready))))) = Ok true.
Proof.
  pose proof (kubo_delete_only_unpins demo_cids [255; 1; 2; 3]%Z demo_md kubo_ready
                ltac:(discriminate) demo_cids_valid eq_refl eq_refl eq_refl) as H.
  cbv zeta in H. destruct H as (_ & _ & _ & H & _). exact H.
Defined.

Lemma kubo_failed_initialize_witness :
  Kubo.client (snd (Kubo.initialize
    {| Kubo.client := false; Kubo.node_up := false; Kubo.shouldPin := true;
       Kubo.blocks := ∅; Kubo.pins := ∅ |})) = true.
Proof.
  pose proof (kubo_failed_initialize demo_cids
                {| Kubo.client := false; Kubo.node_up := false; Kubo.shouldPin := true;
                   Kubo.blocks := ∅; Kubo.pins := ∅ |} [1]%Z demo_md
                eq_refl ltac:(discriminate)) as H.
  cbv zeta in H. destruct H as (_ & H & _). exact H.
Defined.

Lemma kubo_retrieve_errors_witness :
  is_blank "ipfs://Qm1" = false /\
  Kubo.retrieve demo_cids "ipfs://Qm1" kubo_ready =
    (Throw (TacoStorageError RETRIEVAL_ERROR
              ("Failed to retrieve data from IPFS: Invalid IPFS reference format: " ++ "ipfs://Qm1")
              (Some (TacoStorageError UNDEFINED_TYPE
                       ("Invalid IPFS reference format: " ++ "ipfs://Qm1") None))), kubo_ready).
Proof.
  split; [reflexivity|].
  destruct (kubo_retrieve_errors demo_cids "ipfs://Qm1" kubo_ready eq_refl) as (_ & _ & H).
  apply H; reflexivity.
Defined.

Lemma helia_delete_keeps_content_witness :
  Helia.delete demo_cids "ipfs://bafyk1"
    (snd (Helia.store demo_cids [255; 1; 2; 3]%Z demo_md
            {| Helia.ready := true; Helia.blocks := ∅ |})) =
    (Ok true, snd (Helia.store demo_cids [255; 1; 2; 3]%Z demo_md
                     {| Helia.ready := true; Helia.blocks := ∅ |})) /\
  fst (Helia.retrieve demo_cids "ipfs://bafyk1"
         (snd (Helia.store demo_cids [255; 1; 2; 3]%Z demo_md
                 {| Helia.ready := true; Helia.blocks := ∅ |})))
  = Ok ([255; 1; 2; 3]%Z, demo_md).
Proof.
  pose proof (helia_delete_keeps_content demo_cids [255; 1; 2; 3]%Z demo_md
                {| Helia.ready := true; Helia.blocks := ∅ |}
                ltac:(discriminate) eq_refl demo_cids_valid) as H.
  cbv zeta in H. destruct H as (_ & Hd & _ & H). split; [apply Hd; reflexivity|exact H].
Defined.

Lemma helia_after_cleanup_witness :
  Helia.delete demo_cids "ipfs://bafyk1"
    (snd (Helia.cleanup {| Helia.ready := true; Helia.blocks := ∅ |})) =
  (Throw (TacoStorageError ADAPTER_ERROR
            "Helia IPFS adapter not initialized. Call initialize() first." None),
   snd (Helia.cleanup {| Helia.ready := true; Helia.blocks := ∅ |})).
Proof.
  pose proof (helia_after_cleanup demo_cids
                {| Helia.ready := true; Helia.blocks := ∅ |}
                [1]%Z demo_md "ipfs://bafyk1") as H.
  cbv zeta in H. destruct (H ltac:(discriminate) eq_refl) as (_ & _ & Hd & _). exact Hd.
Defined.

Lemma pinata_uninitialized_witness :
  Pinata.retrieve "bafyk1"
    {| Pinata.client := false; Pinata.url := "gateway.pinata.cloud"; Pinata.online := true;
       Pinata.files := []; Pinata.next_uploads := [] |} =
  (Throw (TacoStorageError ADAPTER_ERROR
            "Pinata adapter not initialized. Call initialize() first." None),
   {| Pinata.client := false; Pinata.url := "gateway.pinata.cloud"; Pinata.online := true;
      Pinata.files := []; Pinata.next_uploads := [] |}).
Proof.
  pose proof (pinata_uninitialized
                {| Pinata.client := false; Pinata.url := "gateway.pinata.cloud";
                   Pinata.online := true; Pinata.files := []; Pinata.next_uploads := [] |}
                [1]%Z demo_md "bafyk1") as H.
  cbv zeta in H. destruct (H eq_refl ltac:(discriminate) eq_refl) as (_ & Hr & _). exact Hr.
Defined.


Lemma pinata_retrieve_wraps_failures_witness :
  exists m e,
    Pinata.retrieve "bafyk1"
      {| Pinata.client := true; Pinata.url := "gateway.pinata.cloud"; Pinata.online := true;
         Pinata.files := []; Pinata.next_uploads := [] |} =
    (Throw (TacoStorageError STORAGE_ERROR m (Some e)),
     {| Pinata.client := true; Pinata.url := "gateway.pinata.cloud"; Pinata.online := true;
        Pinata.files := []; Pinata.next_uploads := [] |}).
Proof.
  destruct (pinata_retrieve_wraps_failures
              {| Pinata.client := true; Pinata.url := "gateway.pinata.cloud";
                 Pinata.online := true; Pinata.files := []; Pinata.next_uploads := [] |}
              "bafyk1" eq_refl eq_refl) as [[r Hr]|H]; [discriminate Hr|exact H].
Defined.

Lemma pinata_delete_always_true_witness :
  fst (Pinata.delete "u1"
         {| Pinata.client := true; Pinata.url := "gateway.pinata.cloud"; Pinata.online := false;
            Pinata.files := []; Pinata.next_uploads := [] |}) = Ok true.
Proof.
  pose proof (pinata_delete_always_true
                {| Pinata.client := true; Pinata.url := "gateway.pinata.cloud";
                   Pinata.online := false; Pinata.files := []; Pinata.next_uploads := [] |}
                "u1" eq_refl eq_refl) as H.
  cbv zeta in H. exact (proj1 H).
Defined.

Lemma taco_store_past_expiry_rejected_witness :
  TacoStorage.store SQLite.adapter demo_lib (DBytes [1; 2; 3]%Z) "0xsigner"
    {| o_id := None; o_contentType := None; o_metadata := None; o_condition := None;
       o_expiresAt := Some 1600000000000%Z |} (world0 (sqlite_ready [] ∅)) =
  (Throw (TacoStorageError INVALID_CONFIG "End time must be in the future" None),
   world0 (sqlite_ready [] ∅)).
Proof.
  apply (taco_store_past_expiry_rejected SQLite.adapter demo_lib (DBytes [1; 2; 3]%Z)
           "0xsigner" _ (world0 (sqlite_ready [] ∅)) 1600000000000%Z); try reflexivity.
  unfold world0; simpl; lia.
Defined.

Lemma taco_store_defaults_witness :
  exists md,
    w_trace (snd (TacoStorage.store SQLite.adapter demo_lib (DBytes [1; 2; 3]%Z) "0xsigner"
                    no_options (world0 (sqlite_ready [] ∅)))) =
      [CallEncrypt (DBytes [1; 2; 3]%Z)
         (JObj [("conditionType", JStr "time"); ("chain", JNum 80001);
                ("method", JStr "blocktime");
                ("returnValueTest",
                   JObj [("comparator", JStr "<="); ("value", JNum 1700086400%Z)])]);
       CallAdapterStore [255; 1; 2; 3]%Z md] /\
    md_id md = uuidv4 demo_lib.
Proof.
  destruct (taco_store_defaults SQLite.adapter demo_lib (DBytes [1; 2; 3]%Z) "0xsigner"
              no_options (world0 (sqlite_ready [] ∅)) [255; 1; 2; 3]%Z
              eq_refl eq_refl eq_refl eq_refl eq_refl) as (md & Ht & _ & _ & Hid & _).
  exists md. split; [exact Ht|apply Hid; left; reflexivity].
Defined.

Lemma taco_getMetadata_sqlite_no_decrypt_witness :
  TacoStorage.getMetadata SQLite.adapter "k1"
    {| w_adapter := sqlite_ready [demo_row "k1"] ∅; w_encInit := false;
       w_now := 0%Z; w_trace := [] |} =
  (Ok (SQLite.metadata_of_row (demo_row "k1")),
   {| w_adapter := sqlite_ready [demo_row "k1"] ∅; w_encInit := false;
      w_now := 0%Z; w_trace := [] |}).
Proof.
  apply taco_getMetadata_sqlite_no_decrypt; reflexivity.
Defined.

Lemma taco_blank_id_sqlite_witness :
  is_blank (String (ascii_of_nat 160) EmptyString) = true /\
  TacoStorage.delete SQLite.adapter (String (ascii_of_nat 160) EmptyString)
    (world0 (sqlite_ready [] ∅)) =
    (Throw (TacoStorageError STORAGE_ERROR
              "Failed to delete data: Invalid ID: must be a non-empty string"
              (Some (PlainError "Invalid ID: must be a non-empty string" None))),
     world0 (sqlite_ready [] ∅)).
Proof.
  split; [reflexivity|].
  pose proof (taco_blank_id_sqlite (String (ascii_of_nat 160) EmptyString)
                (world0 (sqlite_ready [] ∅)) ltac:(discriminate) eq_refl) as H.
  cbv zeta in H. destruct H as (_ & H & _). exact H.
Defined.


Lemma createWithKubo_node_down_witness :
  w_encInit (snd (createWithKubo demo_cids demo_lib
    {| Kubo.client := false; Kubo.node_up := false; Kubo.shouldPin := true;
       Kubo.blocks := ∅; Kubo.pins := ∅ |} 0%Z)) = false.
Proof.
  exact (proj2 (createWithKubo_node_down demo_cids demo_lib
    {| Kubo.client := false; Kubo.node_up := false; Kubo.shouldPin := true;
       Kubo.blocks := ∅; Kubo.pins := ∅ |} 0%Z eq_refl)).
Defined.

Lemma reference_forms_agree_witness :
  parseReference (formatReference "bafyk1") = parseReference "bafyk1".
Proof.
  exact (proj2 (reference_forms_agree "bafyk1" eq_refl)).
Defined.
